(** * DigitalOcean provider of external-dns-management: client and handler

    A shallow embedding of
      - pkg/controller/provider/digitalocean/client.go  (DNSClient)
      - the provider's handler                          (Handler)
    together with the parts of the [godo], [strconv], [provider] and [raw]
    packages they call.

    Conventions.
      - Go's [int] is the 64-bit signed integer of the platforms the
        controller is built for, carried in [Z] with the wrap-around
        written out ([wrap_int]).
      - A Go result pair [(v, err)] is a pair whose second component is an
        [option error]; [None] is [nil].
      - Everything the code does to its injected capabilities (the metrics
        sink, the rate limiter, the remote service) is appended to the
        [history] of the [World], in program order. The remote service is an
        oracle that answers a request from the history so far. *)

From Stdlib Require Import ZArith Lia Ascii String.
From stdpp Require Import base option list gmap strings pretty.

Local Open Scope string_scope.
Local Open Scope list_scope.
Local Open Scope Z_scope.

(* ===================================================================== *)
(** ** Go integers *)
(* ===================================================================== *)

Definition int_min : Z := - 2 ^ 63.
Definition int_max : Z := 2 ^ 63 - 1.

Definition in_int (z : Z) : Prop := int_min <= z <= int_max.

(** Two's-complement wrap-around of a 64-bit signed integer. *)
Definition wrap_int (z : Z) : Z := (z + 2 ^ 63) mod 2 ^ 64 - 2 ^ 63.

(** [x + y] on [int]. *)
Definition int_add (x y : Z) : Z := wrap_int (x + y).

(** The conversion [int(v)] of an [int64]. *)
Definition int_of_int64 (v : Z) : Z := wrap_int v.

(* ===================================================================== *)
(** ** Errors *)
(* ===================================================================== *)

(** [strconv.ErrSyntax] and [strconv.ErrRange]. *)
Inductive NumErr : Type := ErrSyntax | ErrRange.

(** Go error values. [fmt.Errorf] is kept symbolic: the format string and
    its operands, each under the verb that prints it ([%q] for strings,
    [%s] for the wrapped error). *)
Inductive error : Type :=
| NumError (Func Num : string) (Err : NumErr)
| ServiceError (msg : string)
| Errorf (format : string) (args : list fmt_arg)
with fmt_arg : Type :=
| ArgQ (s : string)
| ArgS (e : error)
| ArgD (n : Z)
| ArgV (s : string).

(** The operands of an error built by [fmt.Errorf]. *)
Definition operands (e : error) : list fmt_arg :=
  match e with
  | Errorf _ args => args
  | _ => []
  end.

(* ===================================================================== *)
(** ** strconv.Atoi *)
(* ===================================================================== *)

Definition digit (c : ascii) : option Z :=
  let n := Z.of_N (Ascii.N_of_ascii c) in
  if (48 <=? n) && (n <=? 57) then Some (n - 48) else None.

Definition maxUint64 : Z := 2 ^ 64 - 1.

Inductive scan : Type :=
| ScanOk (n : Z)
| ScanSyntax
| ScanRange.

(** The digit loop of [strconv.ParseUint] in base 10 and 64 bits: it stops
    at the first byte that is not a digit, or at the first overflow,
    whichever comes first. *)
Fixpoint parseDigits (s : string) (n : Z) : scan :=
  match s with
  | EmptyString => ScanOk n
  | String c s' =>
      match digit c with
      | None => ScanSyntax
      | Some d =>
          if maxUint64 / 10 + 1 <=? n then ScanRange
          else
            let n1 := n * 10 + d in
            if maxUint64 <? n1 then ScanRange else parseDigits s' n1
      end
  end.

(** [strconv.Atoi]: base 10, an optional sign, at least one digit and
    nothing else; a value outside [int] is a range error that carries the
    nearest bound. *)
Definition Atoi (s : string) : Z * option error :=
  let syntaxError := (0, Some (NumError "Atoi" s ErrSyntax)) in
  let rangeError v := (v, Some (NumError "Atoi" s ErrRange)) in
  match s with
  | EmptyString => syntaxError
  | String c rest =>
      let neg := Ascii.eqb c "-"%char in
      let body := if neg || Ascii.eqb c "+"%char then rest else s in
      match body with
      | EmptyString => syntaxError
      | _ =>
          match parseDigits body 0 with
          | ScanSyntax => syntaxError
          | ScanRange => rangeError (if neg then int_min else int_max)
          | ScanOk un =>
              if negb neg && (int_max <? un) then rangeError int_max
              else if neg && (- int_min <? un) then rangeError int_min
              else (if neg then - un else un, None)
          end
      end
  end.

(* ===================================================================== *)
(** ** godo: the DigitalOcean API types the provider uses *)
(* ===================================================================== *)

Module godo.

Record Domain : Type := {
  Domain_Name : string;
  Domain_TTL : Z;
  Domain_ZoneFile : string
}.

Record DomainRecord : Type := {
  ID : Z;
  Type_ : string;
  Name : string;
  Data : string;
  Priority : Z;
  Port : Z;
  TTL : Z;
  Weight : Z;
  Flags : Z;
  Tag : string
}.

Record DomainRecordEditRequest : Type := {
  req_Type : string;
  req_Name : string;
  req_Data : string;
  req_Priority : Z;
  req_Port : Z;
  req_TTL : Z;
  req_Weight : Z;
  req_Flags : Z;
  req_Tag : string
}.

Record ListOptions : Type := {
  Page : Z;
  PerPage : Z
}.

(** [*godo.Links], seen through the two methods the client calls. *)
Record Links : Type := {
  IsLastPage : bool;
  CurrentPage : Z * option error
}.

(** [*godo.Response]; [Links] is a pointer and may be nil. *)
Record Response : Type := {
  Response_Links : option Links
}.

End godo.

(* ===================================================================== *)
(** ** provider and raw: what the adapter shares with the controller *)
(* ===================================================================== *)

(** [dns.RS_NS]. *)
Definition RS_NS : string := "NS".

(** The request kinds counted by [provider.Metrics.AddRequests]. *)
Inductive MetricKind : Type :=
| M_LISTZONES
| M_LISTRECORDS
| M_CREATERECORDS
| M_UPDATERECORDS
| M_DELETERECORDS.

#[global] Instance MetricKind_eq_dec : EqDecision MetricKind.
Proof. solve_decision. Defined.

(** The record of this provider: a [godo.DomainRecord] and the domain of
    the zone that owns it. *)
Module digitalocean.

Record Record : Type := {
  DomainRecord : godo.DomainRecord;
  domain : string
}.

End digitalocean.

Module raw.

(** The interface [raw.Record], as the value of each of its methods and
    the result of the type assertion [r.( *Record )] ([None] when the
    dynamic type is another one and the assertion panics). *)
Record Record : Type := {
  GetType : string;
  GetId : string;
  GetDNSName : string;
  GetValue : string;
  GetTTL : Z;
  asRecord : option digitalocean.Record
}.

(** Modelled from the spec: the zone state of package raw ([NewState],
    [AddRecord], [CalculateDNSSets]) is not under src/. A zone state is the
    index of the records added to it and the record sets built from them:
    one set per (DNS name, type), its (value, TTL) pairs in encounter
    order. An NS record whose name is not the apex of its zone is a
    forwarded subdomain and takes no part in the aggregation. *)
Record ZoneState : Type := {
  records : list Record;
  dnssets : gmap (string * string) (list (string * Z))
}.

Definition NewState : ZoneState := {| records := []; dnssets := ∅ |}.

Definition AddRecord (state : ZoneState) (r : Record) : ZoneState :=
  {| records := records state ++ [r]; dnssets := dnssets state |}.

Definition isForwarded (r : Record) : bool :=
  match asRecord r with
  | Some d =>
      String.eqb (GetType r) "NS"
      && negb (String.eqb (GetDNSName r) (digitalocean.domain d))
  | None => false
  end.

Definition addToSet (sets : gmap (string * string) (list (string * Z)))
  (r : Record) : gmap (string * string) (list (string * Z)) :=
  let k := (GetDNSName r, GetType r) in
  <[k := default [] (sets !! k) ++ [(GetValue r, GetTTL r)]]> sets.

Definition CalculateDNSSets (state : ZoneState) : ZoneState :=
  {| records := records state;
     dnssets := foldl (fun sets r => if isForwarded r then sets
                                     else addToSet sets r)
                      ∅ (records state) |}.

(** Modelled from the spec: the effective TTL of a record set is the lowest
    TTL among its records. *)
Definition effectiveTTL (entries : list (string * Z)) : option Z :=
  match entries with
  | [] => None
  | (_, t) :: rest => Some (foldl Z.min t (snd <$> rest))
  end.

End raw.

Module provider.

(** [provider.DNSHostedZone], the zone descriptor handed to the
    controller, with the accessors named after its methods. *)
Record DNSHostedZone : Type := {
  ProviderType : string;
  Id : string;
  Domain : string;
  Key : string;
  ForwardedDomains : list string;
  IsPrivate : bool
}.

Definition NewDNSHostedZone (ptype id domain key : string)
  (forwarded : list string) (isPrivate : bool) : DNSHostedZone :=
  {| ProviderType := ptype; Id := id; Domain := domain; Key := key;
     ForwardedDomains := forwarded; IsPrivate := isPrivate |}.

End provider.

(* ===================================================================== *)
(** ** The world: metrics sink, rate limiter and remote service *)
(* ===================================================================== *)

(** One request to the remote service ([godo.DomainsService]). *)
Inductive Call : Type :=
| CallList (opt : godo.ListOptions)
| CallRecords (domain : string) (opt : godo.ListOptions)
| CallCreateRecord (domain : string) (req : godo.DomainRecordEditRequest)
| CallEditRecord (domain : string) (id : Z) (req : godo.DomainRecordEditRequest)
| CallDeleteRecord (domain : string) (id : Z).

(** What the injected capabilities observe, in program order:
    [metrics.AddRequests(kind, n)], [rateLimiter.Accept()], and a request
    sent to the remote service. *)
Inductive Event : Type :=
| Metric (kind : MetricKind) (n : Z)
| Token
| Remote (c : Call).

(** The interface [godo.DomainsService]: each method answers from the
    history of the world at the time of the request, so that a service may
    change its answers as requests arrive. The record and response that
    [CreateRecord] and [EditRecord] return are dropped by the client and
    are left out. *)
Module DomainsService.

Record t : Type := {
  List : list Event -> godo.ListOptions ->
         list godo.Domain * godo.Response * option error;
  Records : list Event -> string -> godo.ListOptions ->
            list godo.DomainRecord * godo.Response * option error;
  CreateRecord : list Event -> string -> godo.DomainRecordEditRequest ->
                 option error;
  EditRecord : list Event -> string -> Z -> godo.DomainRecordEditRequest ->
               option error;
  DeleteRecord : list Event -> string -> Z -> option error
}.

End DomainsService.

(** Number of rate-limiter tokens taken in a history. *)
Fixpoint tokens (h : list Event) : nat :=
  match h with
  | [] => O
  | Token :: h' => S (tokens h')
  | _ :: h' => tokens h'
  end.

(** Value of the metrics counter of one request kind after a history. *)
Fixpoint requests (k : MetricKind) (h : list Event) : Z :=
  match h with
  | [] => 0
  | Metric k' n :: h' =>
      (if bool_decide (k = k') then n else 0) + requests k h'
  | _ :: h' => requests k h'
  end.

(** Number of [AddRequests] calls in a history, whatever the kind. *)
Fixpoint increments (h : list Event) : nat :=
  match h with
  | [] => O
  | Metric _ _ :: h' => S (increments h')
  | _ :: h' => increments h'
  end.

(** The requests sent to the remote service in a history, in order. *)
Fixpoint calls (h : list Event) : list Call :=
  match h with
  | [] => []
  | Remote c :: h' => c :: calls h'
  | _ :: h' => calls h'
  end.

(** Modelled from the spec: an entry of the zone cache ([provider.ZoneCache]
    is not under src/) holds the last snapshot and its validity flag. *)
Record CacheEntry (A : Type) : Type := {
  snapshot : A;
  valid : bool
}.

Arguments snapshot {A} _.
Arguments valid {A} _.

(** The state a call runs in: the history of the injected capabilities and
    the store of the handler's zone cache (the zone list and, per zone key,
    the zone state). *)
Record World : Type := {
  history : list Event;
  zonesEntry : option (CacheEntry (list provider.DNSHostedZone));
  stateEntries : gmap string (CacheEntry raw.ZoneState)
}.

Definition record_event (e : Event) (w : World) : World :=
  {| history := history w ++ [e];
     zonesEntry := zonesEntry w;
     stateEntries := stateEntries w |}.

(** The world with more events in its history. *)
Definition after (w : World) (es : list Event) : World :=
  {| history := history w ++ es;
     zonesEntry := zonesEntry w;
     stateEntries := stateEntries w |}.

(* ===================================================================== *)
(** ** The monad of the embedding *)
(* ===================================================================== *)

(** How a call ends: it returns, it panics (a failed type assertion), or
    its loop has used up the iterations it was given and is still
    running. *)
Inductive outcome (A : Type) : Type :=
| Return (a : A)
| Panics
| Spins.

Arguments Return {A} a.
Arguments Panics {A}.
Arguments Spins {A}.

Definition M (A : Type) : Type := World -> outcome A * World.

Definition ret {A : Type} (a : A) : M A := fun w => (Return a, w).

Definition bind {A B : Type} (m : M A) (k : A -> M B) : M B :=
  fun w =>
    match m w with
    | (Return a, w') => k a w'
    | (Panics, w') => (Panics, w')
    | (Spins, w') => (Spins, w')
    end.

Definition panic {A : Type} : M A := fun w => (Panics, w).

Definition spin {A : Type} : M A := fun w => (Spins, w).

Declare Scope go_scope.
Delimit Scope go_scope with go.

Notation "'let*' p ':=' m 'in' k" := (bind m (fun p => k))
  (at level 10, p pattern, m at level 100, k at level 200) : go_scope.
Notation "m ;; k" := (bind m (fun _ => k))
  (at level 100, k at level 200, right associativity) : go_scope.

Local Open Scope go_scope.

(** [metrics.AddRequests(kind, n)]. *)
Definition metrics_AddRequests (kind : MetricKind) (n : Z) : M unit :=
  fun w => (Return tt, record_event (Metric kind n) w).

(** [rateLimiter.Accept()]: takes one token. *)
Definition rateLimiter_Accept : M unit :=
  fun w => (Return tt, record_event Token w).

(** A request to the remote service and its answer. *)
Definition remote {A : Type} (c : Call) (answer : list Event -> A) : M A :=
  fun w => (Return (answer (history w)), record_event (Remote c) w).

(** The type assertion [r.( *Record )]. *)
Definition assertRecord (r : raw.Record) : M digitalocean.Record :=
  match raw.asRecord r with
  | Some d => ret d
  | None => panic
  end.

(* ===================================================================== *)
(** ** client.go *)
(* ===================================================================== *)

(** [DNSClient]: the remote service; its metrics sink and rate limiter
    are the world's. *)
Record DNSClient : Type := {
  svc : DomainsService.t
}.

Definition firstPage : godo.ListOptions :=
  {| godo.Page := 1; godo.PerPage := 100 |}.

Definition nextPage (opt : godo.ListOptions) (page : Z) : godo.ListOptions :=
  {| godo.Page := int_add page 1; godo.PerPage := godo.PerPage opt |}.

(** The [for] loop of [ListDomains], given at most [fuel] iterations. *)
Fixpoint ListDomains_loop (cl : DNSClient) (fuel : nat)
  (opt : godo.ListOptions) (domains : list godo.Domain)
  : M (list godo.Domain * option error) :=
  match fuel with
  | O => spin
  | S fuel' =>
      let* (doms, resp, err) :=
        remote (CallList opt) (fun h => DomainsService.List (svc cl) h opt) in
      match err with
      | Some e => ret ([], Some e)
      | None =>
          let domains := domains ++ doms in
          match godo.Response_Links resp with
          | None => ret (domains, None)
          | Some links =>
              if godo.IsLastPage links then ret (domains, None)
              else
                let (page, err) := godo.CurrentPage links in
                match err with
                | Some e => ret ([], Some e)
                | None => ListDomains_loop cl fuel' (nextPage opt page) domains
                end
          end
      end
  end.

Definition ListDomains (cl : DNSClient) (fuel : nat)
  : M (list godo.Domain * option error) :=
  metrics_AddRequests M_LISTZONES 1;;
  rateLimiter_Accept;;
  ListDomains_loop cl fuel firstPage [].

(** The [for] loop of [ListRecords], given at most [fuel] iterations. *)
Fixpoint ListRecords_loop (cl : DNSClient) (fuel : nat) (domain : string)
  (opt : godo.ListOptions) (records : list godo.DomainRecord)
  : M (list godo.DomainRecord * option error) :=
  match fuel with
  | O => spin
  | S fuel' =>
      let* (recs, resp, err) :=
        remote (CallRecords domain opt)
               (fun h => DomainsService.Records (svc cl) h domain opt) in
      match err with
      | Some e => ret ([], Some e)
      | None =>
          let records := records ++ recs in
          match godo.Response_Links resp with
          | None => ret (records, None)
          | Some links =>
              if godo.IsLastPage links then ret (records, None)
              else
                let (page, err) := godo.CurrentPage links in
                match err with
                | Some e => ret ([], Some e)
                | None =>
                    ListRecords_loop cl fuel' domain (nextPage opt page) records
                end
          end
      end
  end.

Definition ListRecords (cl : DNSClient) (fuel : nat) (domain : string)
  : M (list godo.DomainRecord * option error) :=
  metrics_AddRequests M_LISTRECORDS 1;;
  rateLimiter_Accept;;
  ListRecords_loop cl fuel domain firstPage [].

Definition createRecordRequest (r : raw.Record)
  : godo.DomainRecordEditRequest :=
  let req := {| godo.req_Type := raw.GetType r;
                godo.req_Name := raw.GetDNSName r;
                godo.req_Data := raw.GetValue r;
                godo.req_Priority := 0;
                godo.req_Port := 0;
                godo.req_TTL := raw.GetTTL r;
                godo.req_Weight := 0;
                godo.req_Flags := 0;
                godo.req_Tag := "" |} in
  if godo.req_TTL req <? 30 then
    {| godo.req_Type := godo.req_Type req;
       godo.req_Name := godo.req_Name req;
       godo.req_Data := godo.req_Data req;
       godo.req_Priority := godo.req_Priority req;
       godo.req_Port := godo.req_Port req;
       godo.req_TTL := 30;
       godo.req_Weight := godo.req_Weight req;
       godo.req_Flags := godo.req_Flags req;
       godo.req_Tag := godo.req_Tag req |}
  else req.

Definition CreateRecord (cl : DNSClient) (r : raw.Record) : M (option error) :=
  let req := createRecordRequest r in
  metrics_AddRequests M_CREATERECORDS 1;;
  rateLimiter_Accept;;
  let* d := assertRecord r in
  let* err :=
    remote (CallCreateRecord (digitalocean.domain d) req)
           (fun h => DomainsService.CreateRecord (svc cl) h
                       (digitalocean.domain d) req) in
  match err with
  | Some e =>
      ret (Some (Errorf
        "failed to create record of type %q for DNS name %q and value %q: %s"
        [ArgQ (raw.GetType r); ArgQ (raw.GetDNSName r);
         ArgQ (raw.GetValue r); ArgS e]))
  | None => ret None
  end.

Definition UpdateRecord (cl : DNSClient) (r : raw.Record) : M (option error) :=
  let req := createRecordRequest r in
  let (id, err) := Atoi (raw.GetId r) in
  match err with
  | Some e =>
      ret (Some (Errorf "failed to convert record ID %q to integer: %s"
                        [ArgQ (raw.GetId r); ArgS e]))
  | None =>
      metrics_AddRequests M_UPDATERECORDS 1;;
      rateLimiter_Accept;;
      let* d := assertRecord r in
      let* err :=
        remote (CallEditRecord (digitalocean.domain d) id req)
               (fun h => DomainsService.EditRecord (svc cl) h
                           (digitalocean.domain d) id req) in
      match err with
      | Some e =>
          ret (Some (Errorf
            "failed to update record of type %q for DNS name %q and value %q: %s"
            [ArgQ (raw.GetType r); ArgQ (raw.GetDNSName r);
             ArgQ (raw.GetValue r); ArgS e]))
      | None => ret None
      end
  end.

Definition DeleteRecord (cl : DNSClient) (r : raw.Record) : M (option error) :=
  let (id, err) := Atoi (raw.GetId r) in
  match err with
  | Some e =>
      ret (Some (Errorf "failed to convert ID %q to integer: %s"
                        [ArgQ (raw.GetId r); ArgS e]))
  | None =>
      metrics_AddRequests M_DELETERECORDS 1;;
      rateLimiter_Accept;;
      let* d := assertRecord r in
      let* err :=
        remote (CallDeleteRecord (digitalocean.domain d) id)
               (fun h => DomainsService.DeleteRecord (svc cl) h
                           (digitalocean.domain d) id) in
      match err with
      | Some e =>
          ret (Some (Errorf
            "failed to delete record of type %q for DNS name %q and value %q: %s"
            [ArgQ (raw.GetType r); ArgQ (raw.GetDNSName r);
             ArgQ (raw.GetValue r); ArgS e]))
      | None => ret None
      end
  end.

(** Modelled from the spec: [toRecord] and the methods of [*Record] are in
    a file of the package that is not under src/. The mapping is pure and
    attaches the owning zone's key to the provider record; each method of
    the interface reads the field it is named after, and the identifier of
    a record that the service has not created yet (no [ID]) is absent. *)
Definition toRecord (r : godo.DomainRecord) (domain : string) : raw.Record :=
  {| raw.GetType := godo.Type_ r;
     raw.GetId := if godo.ID r =? 0 then "" else pretty (godo.ID r);
     raw.GetDNSName := godo.Name r;
     raw.GetValue := godo.Data r;
     raw.GetTTL := godo.TTL r;
     raw.asRecord := Some {| digitalocean.DomainRecord := r;
                             digitalocean.domain := domain |} |}.

Definition NewRecord (cl : DNSClient) (fqdn rtype value : string)
  (zone : provider.DNSHostedZone) (ttl : Z) : raw.Record :=
  toRecord {| godo.ID := 0;
              godo.Type_ := rtype;
              godo.Name := fqdn;
              godo.Data := value;
              godo.Priority := 0;
              godo.Port := 0;
              godo.TTL := int_of_int64 ttl;
              godo.Weight := 0;
              godo.Flags := 0;
              godo.Tag := "" |}
           (provider.Key zone).

(* ===================================================================== *)
(** ** provider.ZoneCache and raw.ExecuteRequests *)
(* ===================================================================== *)

(** Modelled from the spec: a change request of the controller
    ([provider.ChangeRequest] is not under src/) carries the target record
    and whether it is marked for removal; the operation is resolved from
    that mark and from whether the record carries an identifier. *)
Record ChangeRequest : Type := {
  Remove : bool;
  Target : raw.Record
}.

(** Modelled from the spec: the operation of a change request is one of
    create, update and delete. *)
Inductive Operation : Type := OpCreate | OpUpdate | OpDelete.

(** Modelled from the spec: a request marked for removal is a delete; one
    whose record carries an identifier is an update; any other is a
    create. *)
Definition operationOf (req : ChangeRequest) : Operation :=
  if Remove req then OpDelete
  else if String.eqb (raw.GetId (Target req)) "" then OpCreate
  else OpUpdate.

Definition operationName (op : Operation) : string :=
  match op with
  | OpCreate => "create"
  | OpUpdate => "update"
  | OpDelete => "delete"
  end.

(** Modelled from the spec: the effect of one applied request on a
    snapshot, used when the cache folds a successful batch into it. *)
Definition foldRequest (state : raw.ZoneState) (req : ChangeRequest)
  : raw.ZoneState :=
  let r := Target req in
  let same (x : raw.Record) := String.eqb (raw.GetId x) (raw.GetId r) in
  let records :=
    match operationOf req with
    | OpCreate => raw.records state ++ [r]
    | OpUpdate => (fun x => if same x then r else x) <$> raw.records state
    | OpDelete => filter (fun x => same x = false) (raw.records state)
    end in
  raw.CalculateDNSSets
    {| raw.records := records; raw.dnssets := raw.dnssets state |}.

Module ZoneCache.

(** Modelled from the spec: the options of the zone cache
    ([provider.ZoneCacheConfig] is not under src/). The one option the
    handler touches switches the cache of zone states off. *)
Record Config : Type := {
  disableZoneStateCache : bool
}.

(** Modelled from the spec: [CopyWithDisabledZoneStateCache] (not under
    src/) is the copy of the options that has the cache of zone states
    switched off. *)
Definition CopyWithDisabledZoneStateCache (c : Config) : Config :=
  {| disableZoneStateCache := true |}.

(** Modelled from the spec: the cache object ([provider.ZoneCache] is not
    under src/). Its store is part of the [World]. The updaters given to
    [NewZoneCache] are methods of the handler that owns the cache and are
    passed to each operation. *)
Record t : Type := {
  config : Config
}.

(** Modelled from the spec: [NewZoneCache] (not under src/) builds the
    cache from its options. *)
Definition NewZoneCache (c : Config) : t * option error :=
  ({| config := c |}, None).

(** Modelled from the spec: the store operations of the cache. A refresh
    installs a valid entry; a conflict keeps the snapshot and clears its
    validity flag; a read sees valid entries only. *)
Definition installZones (zones : list provider.DNSHostedZone) : M unit :=
  fun w =>
    (Return tt,
     {| history := history w;
        zonesEntry := Some {| snapshot := zones; valid := true |};
        stateEntries := stateEntries w |}).

Definition installState (key : string) (state : raw.ZoneState) : M unit :=
  fun w =>
    (Return tt,
     {| history := history w;
        zonesEntry := zonesEntry w;
        stateEntries :=
          <[key := {| snapshot := state; valid := true |}]> (stateEntries w) |}).

Definition invalidateState (key : string) : M unit :=
  fun w =>
    (Return tt,
     {| history := history w;
        zonesEntry := zonesEntry w;
        stateEntries :=
          match stateEntries w !! key with
          | Some e =>
              <[key := {| snapshot := snapshot e; valid := false |}]>
                (stateEntries w)
          | None => stateEntries w
          end |}).

Definition cachedZones : M (option (list provider.DNSHostedZone)) :=
  fun w =>
    (Return match zonesEntry w with
            | Some e => if valid e then Some (snapshot e) else None
            | None => None
            end, w).

Definition cachedState (key : string) : M (option raw.ZoneState) :=
  fun w =>
    (Return match stateEntries w !! key with
            | Some e => if valid e then Some (snapshot e) else None
            | None => None
            end, w).

(** Modelled from the spec: [GetZones] returns the cached zone list if it
    is valid; otherwise it performs one refresh and installs the result
    before returning it. A failed refresh leaves the store as it was. *)
Definition GetZones (c : t)
  (zonesUpdater : M (list provider.DNSHostedZone * option error))
  : M (list provider.DNSHostedZone * option error) :=
  let* hit := cachedZones in
  match hit with
  | Some zones => ret (zones, None)
  | None =>
      let* (zones, err) := zonesUpdater in
      match err with
      | Some e => ret ([], Some e)
      | None => installZones zones;; ret (zones, None)
      end
  end.

(** Modelled from the spec: [GetZoneState] has the same contract per zone
    key. With the cache of zone states switched off there is no entry to
    serve or to install: every call runs the updater. *)
Definition GetZoneState (c : t)
  (stateUpdater : provider.DNSHostedZone ->
                  M (option raw.ZoneState * option error))
  (zone : provider.DNSHostedZone)
  : M (option raw.ZoneState * option error) :=
  if disableZoneStateCache (config c) then stateUpdater zone
  else
    let* hit := cachedState (provider.Key zone) in
    match hit with
    | Some state => ret (Some state, None)
    | None =>
        let* (state, err) := stateUpdater zone in
        match state, err with
        | Some st, None =>
            installState (provider.Key zone) st;; ret (Some st, None)
        | _, _ => ret (None, err)
        end
    end.

(** Modelled from the spec: a reported conflict marks the zone's cached
    state invalid, and the caller is always told to retry. *)
Definition ReportZoneStateConflict (c : t) (zone : provider.DNSHostedZone)
  (err : option error) : M bool :=
  invalidateState (provider.Key zone);; ret true.

(** Modelled from the spec: after a batch without error the applied
    requests are folded into the current snapshot; after an error the
    zone's entry is invalidated. *)
Definition ApplyRequests (c : t) (err : option error)
  (zone : provider.DNSHostedZone) (reqs : list ChangeRequest) : M unit :=
  match err with
  | Some _ => invalidateState (provider.Key zone)
  | None =>
      let* hit := cachedState (provider.Key zone) in
      match hit with
      | Some state =>
          installState (provider.Key zone) (foldl foldRequest state reqs)
      | None => ret tt
      end
  end.

(** Modelled from the spec: [Release] tears down what the cache holds. *)
Definition Release (c : t) : M unit :=
  fun w =>
    (Return tt,
     {| history := history w; zonesEntry := None; stateEntries := ∅ |}).

End ZoneCache.

(** The interface [raw.Executor] that [DNSClient] embeds: the record
    operations of a client. *)
Record Executor : Type := {
  exec_CreateRecord : raw.Record -> M (option error);
  exec_UpdateRecord : raw.Record -> M (option error);
  exec_DeleteRecord : raw.Record -> M (option error)
}.

(** [*DNSClient] as a [raw.Executor]. *)
Definition DNSClient_Executor (cl : DNSClient) : Executor :=
  {| exec_CreateRecord := CreateRecord cl;
     exec_UpdateRecord := UpdateRecord cl;
     exec_DeleteRecord := DeleteRecord cl |}.

(** Modelled from the spec: a request is applied through the operation of
    the client that it resolves to. *)
Definition applyRequest (access : Executor) (req : ChangeRequest)
  : M (option error) :=
  match operationOf req with
  | OpCreate => exec_CreateRecord access (Target req)
  | OpUpdate => exec_UpdateRecord access (Target req)
  | OpDelete => exec_DeleteRecord access (Target req)
  end.

(** Modelled from the spec: the one error a batch returns names the failing
    operation and record, the number of requests applied before it, and
    the underlying cause. *)
Definition batchError (req : ChangeRequest) (succeeded : Z) (cause : error)
  : error :=
  Errorf
    "failed to %s record %q of type %q for DNS name %q and value %q after %d applied requests: %s"
    [ArgV (operationName (operationOf req));
     ArgQ (raw.GetId (Target req));
     ArgQ (raw.GetType (Target req));
     ArgQ (raw.GetDNSName (Target req));
     ArgQ (raw.GetValue (Target req));
     ArgD succeeded;
     ArgS cause].

(** Modelled from the spec: [raw.ExecuteRequests] is not under src/. The
    requests are applied in input order, each through the operation of the
    client it resolves to; the first failure ends the batch with its
    error, and nothing already applied is undone. *)
Fixpoint executeFrom (access : Executor) (succeeded : Z)
  (reqs : list ChangeRequest) : M (option error) :=
  match reqs with
  | [] => ret None
  | req :: rest =>
      let* err := applyRequest access req in
      match err with
      | Some e => ret (Some (batchError req succeeded e))
      | None => executeFrom access (succeeded + 1) rest
      end
  end.

(** Modelled from the spec: [raw.ExecuteRequests]; the logger and the
    handler options it is given play no part. *)
Definition raw_ExecuteRequests (access : Executor)
  (zone : provider.DNSHostedZone) (state : raw.ZoneState)
  (reqs : list ChangeRequest) : M (option error) :=
  executeFrom access 0 reqs.

(* ===================================================================== *)
(** ** The handler *)
(* ===================================================================== *)

(** [provider.DNSHandlerConfig]: the properties of the provider secret and
    the cache options. Its metrics sink and rate limiter are the world's. *)
Record DNSHandlerConfig : Type := {
  Properties : gmap string string;
  CacheConfig : ZoneCache.Config
}.

(** Modelled from the spec: [GetRequiredProperty] (not under src/) yields
    the credential stored under the key or, failing that, under one of its
    alternative keys, and an error when there is none. *)
Fixpoint GetRequiredProperty (c : DNSHandlerConfig) (key : string)
  (altKeys : list string) : string * option error :=
  match Properties c !! key with
  | Some v => (v, None)
  | None =>
      match altKeys with
      | [] => ("", Some (Errorf "'%s' required in secret" [ArgV key]))
      | k :: ks =>
          match GetRequiredProperty c k ks with
          | (v, None) => (v, None)
          | (_, Some _) =>
              ("", Some (Errorf "'%s' required in secret" [ArgV key]))
          end
      end
  end.

Record Handler : Type := {
  DefaultDNSHandler : string;
  config : DNSHandlerConfig;
  cache : ZoneCache.t;
  client : DNSClient
}.

Definition Handler_ProviderType (h : Handler) : string := DefaultDNSHandler h.

Section NewHandler.

(** The provider type constant of the package, declared outside src/. *)
Variable ProviderTypeDigitalOcean : string.

(** [godo.NewFromToken(apiToken).Domains]: the service an API token
    gives access to. *)
Variable NewFromToken : string -> DomainsService.t.

Definition NewDNSClient (apiToken : string) : DNSClient :=
  {| svc := NewFromToken apiToken |}.

Definition NewHandler (c : DNSHandlerConfig) : option Handler * option error :=
  let (apiToken, err) :=
    GetRequiredProperty c "DIGITALOCEAN_ACCESS_TOKEN" ["apiToken"] in
  match err with
  | Some e => (None, Some e)
  | None =>
      let client := NewDNSClient apiToken in
      let (cache, err) :=
        ZoneCache.NewZoneCache
          (ZoneCache.CopyWithDisabledZoneStateCache (CacheConfig c)) in
      match err with
      | Some e => (None, Some e)
      | None =>
          (Some {| DefaultDNSHandler := ProviderTypeDigitalOcean;
                   config := c;
                   cache := cache;
                   client := client |}, None)
      end
  end.

End NewHandler.

(** The inner loop of [getZones]: the names of the NS records of [dom]
    other than its apex, appended to [forwarded]. *)
Definition appendForwarded (dom : godo.Domain)
  (records : list godo.DomainRecord) (forwarded : list string) : list string :=
  foldl (fun forwarded record =>
           if String.eqb (godo.Type_ record) RS_NS
              && negb (String.eqb (godo.Name record) (godo.Domain_Name dom))
           then forwarded ++ [godo.Name record]
           else forwarded)
        forwarded records.

(** The loop of [getZones] over the domains. [forwarded] is declared
    before the loop and lives across its iterations. A zone keeps the
    slice it was built with: later appends write past its length. *)
Fixpoint getZones_loop (h : Handler) (fuel : nat) (domains : list godo.Domain)
  (forwarded : list string) (zones : list provider.DNSHostedZone)
  : M (list provider.DNSHostedZone * option error) :=
  match domains with
  | [] => ret (zones, None)
  | dom :: rest =>
      let* (records, err) :=
        ListRecords (client h) fuel (godo.Domain_Name dom) in
      match err with
      | Some e => ret ([], Some e)
      | None =>
          let forwarded := appendForwarded dom records forwarded in
          let hostedZone :=
            provider.NewDNSHostedZone (Handler_ProviderType h)
              (godo.Domain_Name dom) (godo.Domain_Name dom)
              (godo.Domain_Name dom) forwarded false in
          getZones_loop h fuel rest forwarded (zones ++ [hostedZone])
      end
  end.

Definition getZones (h : Handler) (fuel : nat)
  : M (list provider.DNSHostedZone * option error) :=
  let* (domains, err) := ListDomains (client h) fuel in
  match err with
  | Some e => ret ([], Some e)
  | None => getZones_loop h fuel domains [] []
  end.

Definition Release (h : Handler) : M unit := ZoneCache.Release (cache h).

Definition GetZones (h : Handler) (fuel : nat)
  : M (list provider.DNSHostedZone * option error) :=
  ZoneCache.GetZones (cache h) (getZones h fuel).

Definition getZoneState (h : Handler) (fuel : nat)
  (zone : provider.DNSHostedZone) : M (option raw.ZoneState * option error) :=
  let* (records, err) := ListRecords (client h) fuel (provider.Domain zone) in
  match err with
  | Some e => ret (None, Some e)
  | None =>
      let state :=
        foldl (fun state record =>
                 raw.AddRecord state (toRecord record (provider.Domain zone)))
              raw.NewState records in
      ret (Some (raw.CalculateDNSSets state), None)
  end.

Definition GetZoneState (h : Handler) (fuel : nat)
  (zone : provider.DNSHostedZone) : M (option raw.ZoneState * option error) :=
  ZoneCache.GetZoneState (cache h) (getZoneState h fuel) zone.

Definition ReportZoneStateConflict (h : Handler)
  (zone : provider.DNSHostedZone) (err : option error) : M bool :=
  ZoneCache.ReportZoneStateConflict (cache h) zone err.

Definition ExecuteRequests (h : Handler) (zone : provider.DNSHostedZone)
  (state : raw.ZoneState) (reqs : list ChangeRequest) : M (option error) :=
  let* err :=
    raw_ExecuteRequests (DNSClient_Executor (client h)) zone state reqs in
  ZoneCache.ApplyRequests (cache h) err zone reqs;;
  ret err.

(* ===================================================================== *)
(** ** Vocabulary of the statements *)
(* ===================================================================== *)

(** The events a call adds to the history of the world it starts in. *)
Definition effects {A : Type} (m : M A) (w : World) : list Event :=
  drop (length (history w)) (history (m w).2).

(** The value a call returns, if it returns. *)
Definition result {A : Type} (m : M A) (w : World) : option A :=
  match (m w).1 with
  | Return a => Some a
  | _ => None
  end.

(** The TTL a request submits to the remote service, if it submits one. *)
Definition submittedTTL (c : Call) : option Z :=
  match c with
  | CallCreateRecord _ req => Some (godo.req_TTL req)
  | CallEditRecord _ _ req => Some (godo.req_TTL req)
  | _ => None
  end.

(** The options of the request for page [n]. *)
Definition pageOpt (n : nat) : godo.ListOptions :=
  {| godo.Page := Z.of_nat n; godo.PerPage := 100 |}.

(** The requests for pages [from], [from + 1], ..., [count] of them. *)
Definition pageCalls (call : godo.ListOptions -> Call) (from count : nat)
  : list Event :=
  (fun n => Remote (call (pageOpt n))) <$> seq from count.

Section Pages.

Context {A : Type}.

Abbreviation reply := (list A * godo.Response * option error)%type.

(** The answer carries the items [p] and says that it is page [n] and not
    the last one. *)
Definition innerPage (n : nat) (p : list A) (r : reply) : Prop :=
  r.1.1 = p /\ r.2 = None /\
  match godo.Response_Links r.1.2 with
  | Some links =>
      godo.IsLastPage links = false /\
      godo.CurrentPage links = (Z.of_nat n, None)
  | None => False
  end.

(** How a listing ends: with a last page of items, or with a request that
    fails. *)
Definition lastReply (ending : list A + error) (r : reply) : Prop :=
  match ending with
  | inl p =>
      r.1.1 = p /\ r.2 = None /\
      match godo.Response_Links r.1.2 with
      | Some links => godo.IsLastPage links = true
      | None => True
      end
  | inr e => r.2 = Some e
  end.

(** A service that answers the requests for pages [1 .. length pages] with
    the inner pages [pages], and the next one with [ending], whatever
    happened before. *)
Definition serves (answer : list Event -> godo.ListOptions -> reply)
  (pages : list (list A)) (ending : list A + error) : Prop :=
  (forall h i p, pages !! i = Some p ->
                 innerPage (S i) p (answer h (pageOpt (S i)))) /\
  (forall h, lastReply ending (answer h (pageOpt (S (length pages))))).

(** What a listing of such a service is to return. *)
Definition listing (pages : list (list A)) (ending : list A + error)
  : list A * option error :=
  match ending with
  | inl p => (concat (pages ++ [p]), None)
  | inr e => ([], Some e)
  end.

(** The loop that [ListDomains] and [ListRecords] both spell out, over the
    request it sends. *)
Fixpoint paginate (call : godo.ListOptions -> Call)
  (answer : list Event -> godo.ListOptions -> reply)
  (fuel : nat) (opt : godo.ListOptions) (items : list A)
  : M (list A * option error) :=
  match fuel with
  | O => spin
  | S fuel' =>
      let* (page_items, resp, err) := remote (call opt) (fun h => answer h opt) in
      match err with
      | Some e => ret ([], Some e)
      | None =>
          let items := items ++ page_items in
          match godo.Response_Links resp with
          | None => ret (items, None)
          | Some links =>
              if godo.IsLastPage links then ret (items, None)
              else
                let (page, err) := godo.CurrentPage links in
                match err with
                | Some e => ret ([], Some e)
                | None => paginate call answer fuel' (nextPage opt page) items
                end
          end
      end
  end.

End Pages.

(** Requests applied one after the other, each returning no error: the
    world [w'] is reached from [w] by applying [reqs] in order. *)
Inductive applied (access : Executor)
  : list ChangeRequest -> World -> World -> Prop :=
| applied_nil w : applied access [] w w
| applied_cons req rest w w1 w2 :
    applyRequest access req w = (Return None, w1) ->
    applied access rest w1 w2 ->
    applied access (req :: rest) w w2.

(** The (value, TTL) pairs that the listed records of the zone [apex]
    contribute to the record set of [name] and [rtype], in listing order:
    those of the records of that name and type, forwarded subdomains
    apart. *)
Definition setOf (apex name rtype : string) (records : list godo.DomainRecord)
  : list (string * Z) :=
  omap (fun x =>
          if negb (String.eqb (godo.Type_ x) "NS"
                   && negb (String.eqb (godo.Name x) apex))
             && String.eqb (godo.Name x) name
             && String.eqb (godo.Type_ x) rtype
          then Some (godo.Data x, godo.TTL x)
          else None)
       records.

(** The same call made two times in a row, nothing in between. *)
Definition twice {A : Type} (m : M A) : M (A * A) :=
  let* a := m in
  let* b := m in
  ret (a, b).

(** Two reads of a zone's state in a row that return the same snapshot
    and cost one request to the remote service between them. *)
Definition secondReadFromCache (h : Handler) (fuel : nat)
  (zone : provider.DNSHostedZone) (w : World) : Prop :=
  exists snap,
    result (twice (GetZoneState h fuel zone)) w
    = Some ((Some snap, None), (Some snap, None))
    /\ length (calls (effects (twice (GetZoneState h fuel zone)) w)) = 1%nat.

(** The answer is a page that is not the last and tells which page it
    is: the loop goes on after it. *)
Definition goesOn {A : Type}
  (r : list A * godo.Response * option error) : Prop :=
  r.2 = None /\
  match godo.Response_Links r.1.2 with
  | Some links =>
      godo.IsLastPage links = false /\ (godo.CurrentPage links).2 = None
  | None => False
  end.

(** The answer is a page that is not the last and whose links do not tell
    which page it is: [CurrentPage] fails with [e]. *)
Definition pageUnknown {A : Type} (e : error)
  (r : list A * godo.Response * option error) : Prop :=
  r.2 = None /\
  match godo.Response_Links r.1.2 with
  | Some links =>
      godo.IsLastPage links = false /\ (godo.CurrentPage links).2 = Some e
  | None => False
  end.

(** The names of the NS records of a domain other than its apex, in
    listing order. *)
Definition delegations (dom : godo.Domain) (records : list godo.DomainRecord)
  : list string :=
  godo.Name <$>
    filter (fun x => godo.Type_ x = RS_NS
                     /\ godo.Name x <> godo.Domain_Name dom) records.

(** The records of the domains listed one domain after the other, each
    listing returning without error: [recss] are the records of [doms], and
    [w'] is the world reached from [w]. *)
Inductive listedEach (cl : DNSClient) (fuel : nat)
  : list godo.Domain -> World -> list (list godo.DomainRecord) -> World
    -> Prop :=
| listedEach_nil w : listedEach cl fuel [] w [] w
| listedEach_cons dom doms records recss w w1 w2 :
    ListRecords cl fuel (godo.Domain_Name dom) w
    = (Return (records, None), w1) ->
    listedEach cl fuel doms w1 recss w2 ->
    listedEach cl fuel (dom :: doms) w (records :: recss) w2.

(** The zone descriptor that [getZones] builds for a domain. *)
Definition zoneOf (h : Handler) (dom : godo.Domain) (forwarded : list string)
  : provider.DNSHostedZone :=
  provider.NewDNSHostedZone (Handler_ProviderType h)
    (godo.Domain_Name dom) (godo.Domain_Name dom) (godo.Domain_Name dom)
    forwarded false.

(** The items of the answer to the [i]-th request of a listing that
    started with the history [h] and sent the requests [opts]: the answer
    to [o] after the requests before it. *)
Definition servedItems {A : Type} (call : godo.ListOptions -> Call)
  (answer : list Event -> godo.ListOptions ->
            list A * godo.Response * option error)
  (h : list Event) (opts : list godo.ListOptions)
  (i : nat) (o : godo.ListOptions) : list A :=
  (answer (h ++ (Remote <$> (call <$> take i opts))) o).1.1.

(** A request of the listing kind. *)
Definition isListing (c : Call) : bool :=
  match c with
  | CallList _ | CallRecords _ _ => true
  | _ => false
  end.

(* ===================================================================== *)
(** ** A sample account *)
(* ===================================================================== *)

(** Two zones: example.com delegates sub.example.com, example.org
    delegates nothing. The zone list comes in two pages; the records of
    example.com in one, those of paged.example in three, and the listing of
    broken.example fails on its second page. Writing the record whose
    identifier is 7, or one named bad.example.com, fails. *)

Definition sampleDomain (name : string) : godo.Domain :=
  {| godo.Domain_Name := name; godo.Domain_TTL := 1800;
     godo.Domain_ZoneFile := "" |}.

Definition sampleRecord (id : Z) (rtype name data : string) (ttl : Z)
  : godo.DomainRecord :=
  {| godo.ID := id; godo.Type_ := rtype; godo.Name := name;
     godo.Data := data; godo.Priority := 0; godo.Port := 0;
     godo.TTL := ttl; godo.Weight := 0; godo.Flags := 0; godo.Tag := "" |}.

Definition morePages (n : Z) : godo.Response :=
  {| godo.Response_Links :=
       Some {| godo.IsLastPage := false; godo.CurrentPage := (n, None) |} |}.

Definition lastPage (n : Z) : godo.Response :=
  {| godo.Response_Links :=
       Some {| godo.IsLastPage := true; godo.CurrentPage := (n, None) |} |}.

Definition noLinks : godo.Response := {| godo.Response_Links := None |}.

Definition recordA : godo.DomainRecord :=
  sampleRecord 1 "A" "example.com" "1.2.3.4" 10.

Definition recordNS : godo.DomainRecord :=
  sampleRecord 2 "NS" "sub.example.com" "ns1.example.com" 3600.

Definition recordOrg : godo.DomainRecord :=
  sampleRecord 3 "A" "example.org" "5.6.7.8" 300.

Definition recordTXT (id : Z) : godo.DomainRecord :=
  sampleRecord id "TXT" "paged.example" "v=spf1 -all" 60.

Definition sampleList (opt : godo.ListOptions)
  : list godo.Domain * godo.Response * option error :=
  match godo.Page opt with
  | 1 => ([sampleDomain "example.com"], morePages 1, None)
  | 2 => ([sampleDomain "example.org"], lastPage 2, None)
  | _ => ([], noLinks, Some (ServiceError "404 page not found"))
  end.

Definition sampleRecords (domain : string) (opt : godo.ListOptions)
  : list godo.DomainRecord * godo.Response * option error :=
  if String.eqb domain "example.com" then
    ([recordA; recordNS], noLinks, None)
  else if String.eqb domain "example.org" then
    ([recordOrg], lastPage 1, None)
  else if String.eqb domain "paged.example" then
    match godo.Page opt with
    | 1 => ([recordTXT 11; recordTXT 12], morePages 1, None)
    | 2 => ([recordTXT 13], morePages 2, None)
    | _ => ([recordTXT 14], lastPage 3, None)
    end
  else if String.eqb domain "broken.example" then
    match godo.Page opt with
    | 1 => ([recordTXT 21], morePages 1, None)
    | _ => ([], noLinks, Some (ServiceError "503 service unavailable"))
    end
  else ([], noLinks, Some (ServiceError "404 domain not found")).

Definition sampleService : DomainsService.t :=
  {| DomainsService.List := fun _ opt => sampleList opt;
     DomainsService.Records := fun _ domain opt => sampleRecords domain opt;
     DomainsService.CreateRecord := fun _ _ req =>
       if String.eqb (godo.req_Name req) "bad.example.com"
       then Some (ServiceError "422 unprocessable entity") else None;
     DomainsService.EditRecord := fun _ _ id _ =>
       if id =? 7 then Some (ServiceError "404 record not found") else None;
     DomainsService.DeleteRecord := fun _ _ id =>
       if id =? 7 then Some (ServiceError "404 record not found") else None |}.

Definition sampleClient : DNSClient := {| svc := sampleService |}.

Definition emptyWorld : World :=
  {| history := []; zonesEntry := None; stateEntries := ∅ |}.

Definition sampleZone : provider.DNSHostedZone :=
  provider.NewDNSHostedZone "digitalocean" "example.com" "example.com"
    "example.com" ["sub.example.com"] false.

(** A record of example.com that the service knows as number 7, with a TTL
    under the floor. *)
Definition record7 : raw.Record :=
  toRecord (sampleRecord 7 "A" "www.example.com" "1.2.3.4" 10) "example.com".

(** A record the service refuses to create. *)
Definition recordBad : raw.Record :=
  toRecord (sampleRecord 0 "A" "bad.example.com" "1.2.3.4" 300) "example.com".

(** A record handle whose identifier is not a number. *)
Definition recordForeign : raw.Record :=
  {| raw.GetType := "A";
     raw.GetId := "rec-7f3a";
     raw.GetDNSName := "www.example.com";
     raw.GetValue := "1.2.3.4";
     raw.GetTTL := 300;
     raw.asRecord := None |}.

Definition sampleConfig : DNSHandlerConfig :=
  {| Properties := {[ "DIGITALOCEAN_ACCESS_TOKEN" := "dop_v1_0123456789" ]};
     CacheConfig := {| ZoneCache.disableZoneStateCache := false |} |}.

(** The handler that [NewHandler] builds for the sample account. *)
Definition sampleHandler : Handler :=
  {| DefaultDNSHandler := "digitalocean";
     config := sampleConfig;
     cache := {| ZoneCache.config :=
                   {| ZoneCache.disableZoneStateCache := true |} |};
     client := sampleClient |}.

(** Requests of a batch: create foo.example.com, update record 7 (which
    the service refuses), delete record 9. *)
Definition recordFoo : raw.Record :=
  toRecord (sampleRecord 0 "A" "foo.example.com" "1.2.3.4" 300) "example.com".

Definition record9 : raw.Record :=
  toRecord (sampleRecord 9 "TXT" "old.example.com" "gone" 300) "example.com".

Definition createFoo : ChangeRequest :=
  {| Remove := false; Target := recordFoo |}.

Definition update7 : ChangeRequest :=
  {| Remove := false; Target := record7 |}.

Definition delete9 : ChangeRequest :=
  {| Remove := true; Target := record9 |}.

(** The same handler with the cache of zone states left on. *)
Definition memoHandler : Handler :=
  {| DefaultDNSHandler := "digitalocean";
     config := sampleConfig;
     cache := {| ZoneCache.config :=
                   {| ZoneCache.disableZoneStateCache := false |} |};
     client := sampleClient |}.

(** A service that always has one more page. *)
Definition endlessService : DomainsService.t :=
  {| DomainsService.List := fun _ opt =>
       ([sampleDomain "example.com"], morePages (godo.Page opt), None);
     DomainsService.Records := fun _ _ opt =>
       ([recordTXT (godo.Page opt)], morePages (godo.Page opt), None);
     DomainsService.CreateRecord := fun _ _ _ => None;
     DomainsService.EditRecord := fun _ _ _ _ => None;
     DomainsService.DeleteRecord := fun _ _ _ => None |}.

Definition endlessClient : DNSClient := {| svc := endlessService |}.

(** A service whose second page has links that cannot be read. *)
Definition unreadableLinks : godo.Response :=
  {| godo.Response_Links :=
       Some {| godo.IsLastPage := false;
               godo.CurrentPage :=
                 (0, Some (ServiceError "parse prev page: invalid URL")) |} |}.

Definition unreadableService : DomainsService.t :=
  {| DomainsService.List := fun _ opt =>
       match godo.Page opt with
       | 1 => ([sampleDomain "example.com"], morePages 1, None)
       | _ => ([sampleDomain "example.org"], unreadableLinks, None)
       end;
     DomainsService.Records := fun _ _ opt =>
       match godo.Page opt with
       | 1 => ([recordTXT 31], morePages 1, None)
       | _ => ([recordTXT 32], unreadableLinks, None)
       end;
     DomainsService.CreateRecord := fun _ _ _ => None;
     DomainsService.EditRecord := fun _ _ _ _ => None;
     DomainsService.DeleteRecord := fun _ _ _ => None |}.

Definition unreadableClient : DNSClient := {| svc := unreadableService |}.

(** A record handle of another type whose identifier is a number. *)
Definition recordForeign7 : raw.Record :=
  {| raw.GetType := "A";
     raw.GetId := "7";
     raw.GetDNSName := "www.example.com";
     raw.GetValue := "1.2.3.4";
     raw.GetTTL := 300;
     raw.asRecord := None |}.

(** An MX record of example.com as the service lists it, with its
    priority. *)
Definition recordMX : raw.Record :=
  toRecord {| godo.ID := 5; godo.Type_ := "MX"; godo.Name := "example.com";
              godo.Data := "mail.example.com"; godo.Priority := 10;
              godo.Port := 0; godo.TTL := 3600; godo.Weight := 0;
              godo.Flags := 0; godo.Tag := "" |}
           "example.com".

(** An account of three domains, the second of which cannot be listed to
    its end, and a service that is down. *)
Definition brokenAccountService : DomainsService.t :=
  {| DomainsService.List := fun _ _ =>
       ([sampleDomain "example.com"; sampleDomain "broken.example";
         sampleDomain "example.org"], noLinks, None);
     DomainsService.Records := fun _ domain opt => sampleRecords domain opt;
     DomainsService.CreateRecord := fun _ _ _ => None;
     DomainsService.EditRecord := fun _ _ _ _ => None;
     DomainsService.DeleteRecord := fun _ _ _ => None |}.

Definition brokenAccountHandler : Handler :=
  {| DefaultDNSHandler := "digitalocean";
     config := sampleConfig;
     cache := {| ZoneCache.config :=
                   {| ZoneCache.disableZoneStateCache := true |} |};
     client := {| svc := brokenAccountService |} |}.

Definition downService : DomainsService.t :=
  {| DomainsService.List := fun _ _ =>
       ([], noLinks, Some (ServiceError "503 service unavailable"));
     DomainsService.Records := fun _ _ _ =>
       ([], noLinks, Some (ServiceError "503 service unavailable"));
     DomainsService.CreateRecord := fun _ _ _ =>
       Some (ServiceError "503 service unavailable");
     DomainsService.EditRecord := fun _ _ _ _ =>
       Some (ServiceError "503 service unavailable");
     DomainsService.DeleteRecord := fun _ _ _ =>
       Some (ServiceError "503 service unavailable") |}.

Definition downHandler : Handler :=
  {| DefaultDNSHandler := "digitalocean";
     config := sampleConfig;
     cache := {| ZoneCache.config :=
                   {| ZoneCache.disableZoneStateCache := true |} |};
     client := {| svc := downService |} |}.

(* ===================================================================== *)
(** * Properties *)
(* ===================================================================== *)

(** ** Integers and histories *)

Lemma wrap_int_id (z : Z) : in_int z -> wrap_int z = z.
Proof.
  unfold in_int, int_min, int_max, wrap_int. intros Hz.
  rewrite Z.mod_small; lia.
Qed.

Lemma tokens_app (h1 h2 : list Event) :
  tokens (h1 ++ h2) = (tokens h1 + tokens h2)%nat.
Proof.
  induction h1 as [|e h1 IH]; [reflexivity|].
  destruct e; simpl; rewrite IH; reflexivity.
Qed.

Lemma increments_app (h1 h2 : list Event) :
  increments (h1 ++ h2) = (increments h1 + increments h2)%nat.
Proof.
  induction h1 as [|e h1 IH]; [reflexivity|].
  destruct e; simpl; rewrite IH; reflexivity.
Qed.

Lemma requests_app (k : MetricKind) (h1 h2 : list Event) :
  requests k (h1 ++ h2) = requests k h1 + requests k h2.
Proof.
  induction h1 as [|e h1 IH]; [reflexivity|].
  destruct e; simpl; rewrite IH; lia.
Qed.

Lemma calls_app (h1 h2 : list Event) :
  calls (h1 ++ h2) = calls h1 ++ calls h2.
Proof.
  induction h1 as [|e h1 IH]; [reflexivity|].
  destruct e; simpl; rewrite IH; reflexivity.
Qed.

Lemma tokens_Remote (cs : list Call) : tokens (Remote <$> cs) = O.
Proof. induction cs; simpl; auto. Qed.

Lemma increments_Remote (cs : list Call) : increments (Remote <$> cs) = O.
Proof. induction cs; simpl; auto. Qed.

Lemma requests_Remote (k : MetricKind) (cs : list Call) :
  requests k (Remote <$> cs) = 0.
Proof. induction cs; simpl; auto. Qed.

Lemma calls_Remote (cs : list Call) : calls (Remote <$> cs) = cs.
Proof.
  induction cs as [|c cs IH]; [reflexivity|].
  rewrite fmap_cons. simpl. rewrite IH. reflexivity.
Qed.

Lemma after_nil (w : World) : after w [] = w.
Proof. destruct w; unfold after; simpl. rewrite app_nil_r. reflexivity. Qed.

Lemma after_after (w : World) (es1 es2 : list Event) :
  after (after w es1) es2 = after w (es1 ++ es2).
Proof. unfold after; simpl. rewrite app_assoc. reflexivity. Qed.

Lemma record_event_after (w : World) (e : Event) :
  record_event e w = after w [e].
Proof. reflexivity. Qed.

Lemma effects_after {A : Type} (m : M A) (w : World) (es : list Event) :
  (m w).2 = after w es -> effects m w = es.
Proof.
  intros H. unfold effects. rewrite H. simpl.
  rewrite drop_app_length. reflexivity.
Qed.

(** ** The listing loops *)

Lemma ListDomains_loop_paginate (cl : DNSClient) (fuel : nat)
  (opt : godo.ListOptions) (items : list godo.Domain) (w : World) :
  ListDomains_loop cl fuel opt items w
  = paginate CallList (DomainsService.List (svc cl)) fuel opt items w.
Proof.
  revert opt items w.
  induction fuel as [|fuel IH]; intros opt items w; [reflexivity|].
  simpl. unfold bind, remote.
  destruct (DomainsService.List (svc cl) (history w) opt) as [[doms resp] err].
  destruct err as [e|]; [reflexivity|].
  destruct (godo.Response_Links resp) as [links|]; [|reflexivity].
  destruct (godo.IsLastPage links); [reflexivity|].
  destruct (godo.CurrentPage links) as [page [e|]]; [reflexivity|].
  apply IH.
Qed.

Lemma ListRecords_loop_paginate (cl : DNSClient) (fuel : nat) (domain : string)
  (opt : godo.ListOptions) (items : list godo.DomainRecord) (w : World) :
  ListRecords_loop cl fuel domain opt items w
  = paginate (CallRecords domain)
             (fun h => DomainsService.Records (svc cl) h domain)
             fuel opt items w.
Proof.
  revert opt items w.
  induction fuel as [|fuel IH]; intros opt items w; [reflexivity|].
  simpl. unfold bind, remote.
  destruct (DomainsService.Records (svc cl) (history w) domain opt)
    as [[recs resp] err].
  destruct err as [e|]; [reflexivity|].
  destruct (godo.Response_Links resp) as [links|]; [|reflexivity].
  destruct (godo.IsLastPage links); [reflexivity|].
  destruct (godo.CurrentPage links) as [page [e|]]; [reflexivity|].
  apply IH.
Qed.

Section PaginateFacts.

Context {A : Type}.
Variable call : godo.ListOptions -> Call.
Variable answer : list Event -> godo.ListOptions ->
                  list A * godo.Response * option error.

(** Whatever the service answers and however long the loop runs, it adds
    nothing but requests to the history. *)
Lemma paginate_only_calls (fuel : nat) (opt : godo.ListOptions)
  (items : list A) (w : World) :
  exists cs, (paginate call answer fuel opt items w).2 = after w (Remote <$> cs).
Proof.
  revert opt items w.
  induction fuel as [|fuel IH]; intros opt items w.
  - exists []. simpl. rewrite after_nil. reflexivity.
  - simpl. unfold bind, remote.
    destruct (answer (history w) opt) as [[page_items resp] err].
    assert (Hone : exists cs, record_event (Remote (call opt)) w
                              = after w (Remote <$> cs))
      by (exists [call opt]; reflexivity).
    destruct err as [e|]; [exact Hone|].
    destruct (godo.Response_Links resp) as [links|]; [|exact Hone].
    destruct (godo.IsLastPage links); [exact Hone|].
    destruct (godo.CurrentPage links) as [page [e|]]; [exact Hone|].
    destruct (IH (nextPage opt page) (items ++ page_items)
                 (record_event (Remote (call opt)) w)) as [cs Hcs].
    exists (call opt :: cs). rewrite Hcs, record_event_after, after_after.
    reflexivity.
Qed.

(** The loop started at page [S k] on a service whose pages from there on
    are [pages] and then [ending]. *)
Lemma paginate_from (pages : list (list A)) (ending : list A + error) :
  forall (k fuel : nat) (items : list A) (w : World),
    (forall h i p, pages !! i = Some p ->
       innerPage (k + S i) p (answer h (pageOpt (k + S i)))) ->
    (forall h, lastReply ending (answer h (pageOpt (k + S (length pages))))) ->
    Z.of_nat (k + length pages) < int_max ->
    (length pages < fuel)%nat ->
    paginate call answer fuel (pageOpt (S k)) items w
    = (Return (match ending with
               | inl p => (items ++ concat (pages ++ [p]), None)
               | inr e => ([], Some e)
               end),
       after w (pageCalls call (S k) (S (length pages)))).
Proof.
  induction pages as [|p pages IH]; intros k fuel items w Hin Hlast Hk Hfuel.
  - destruct fuel as [|fuel]; [simpl in Hfuel; lia|].
    specialize (Hlast (history w)). simpl in Hlast.
    replace (k + 1)%nat with (S k) in Hlast by lia.
    simpl. unfold bind, remote.
    destruct (answer (history w) (pageOpt (S k))) as [[page_items resp] err].
    destruct ending as [q|e]; simpl in Hlast.
    + destruct Hlast as (-> & -> & Hlinks).
      rewrite app_nil_r.
      destruct (godo.Response_Links resp) as [links|]; [|reflexivity].
      rewrite Hlinks. reflexivity.
    + rewrite Hlast. reflexivity.
  - destruct fuel as [|fuel]; [simpl in Hfuel; lia|].
    pose proof (Hin (history w) O p eq_refl) as Hp.
    replace (k + 1)%nat with (S k) in Hp by lia.
    simpl. unfold bind, remote.
    destruct (answer (history w) (pageOpt (S k))) as [[page_items resp] err].
    destruct Hp as (Hitems & Herr & Hlinks). simpl in Hitems, Herr, Hlinks.
    subst page_items err.
    destruct (godo.Response_Links resp) as [links|]; [|contradiction].
    destruct Hlinks as [Hnot Hcur]. rewrite Hnot, Hcur.
    assert (Hnext : nextPage (pageOpt (S k)) (Z.of_nat (S k))
                    = pageOpt (S (S k))).
    { unfold nextPage, pageOpt, int_add. simpl godo.PerPage.
      rewrite wrap_int_id.
      - f_equal. lia.
      - unfold in_int, int_min, int_max in *. simpl length in Hk. lia. }
    rewrite Hnext.
    rewrite (IH (S k) fuel (items ++ p) (record_event (Remote (call (pageOpt (S k)))) w)).
    + rewrite record_event_after, after_after.
      f_equal. destruct ending as [q|e]; [|reflexivity].
      simpl. rewrite <- app_assoc. reflexivity.
    + intros h i q Hq.
      replace (S k + S i)%nat with (k + S (S i))%nat by lia.
      apply Hin. exact Hq.
    + intros h.
      replace (S k + S (length pages))%nat
        with (k + S (length (p :: pages)))%nat by (simpl; lia).
      apply Hlast.
    + simpl length in Hk. lia.
    + simpl in Hfuel. lia.
Qed.

Lemma paginate_serves (pages : list (list A)) (ending : list A + error)
  (fuel : nat) (w : World) :
  serves answer pages ending ->
  Z.of_nat (length pages) < int_max ->
  (length pages < fuel)%nat ->
  paginate call answer fuel firstPage [] w
  = (Return (listing pages ending),
     after w (pageCalls call 1 (S (length pages)))).
Proof.
  intros [Hin Hlast] Hlen Hfuel.
  change firstPage with (pageOpt 1).
  rewrite (paginate_from pages ending O fuel [] w); auto.
Qed.

End PaginateFacts.

(** ** Listing *)

(** C3. On a service that hands out its items in pages, [ListDomains] and
    [ListRecords] return the concatenation of all pages in request order,
    having asked for page 1, 2, ... once each; when a page request fails
    they return that error and no items, and ask for nothing more. *)
Theorem listing_concatenates_pages (cl : DNSClient) (domain : string)
  (fuel : nat) (w : World)
  (zonePages : list (list godo.Domain))
  (zoneEnding : list godo.Domain + error)
  (recordPages : list (list godo.DomainRecord))
  (recordEnding : list godo.DomainRecord + error) :
  serves (DomainsService.List (svc cl)) zonePages zoneEnding ->
  serves (fun h => DomainsService.Records (svc cl) h domain)
         recordPages recordEnding ->
  Z.of_nat (length zonePages) < int_max ->
  Z.of_nat (length recordPages) < int_max ->
  (length zonePages < fuel)%nat ->
  (length recordPages < fuel)%nat ->
  ListDomains cl fuel w
  = (Return (listing zonePages zoneEnding),
     after w (Metric M_LISTZONES 1 :: Token ::
              pageCalls CallList 1 (S (length zonePages))))
  /\ ListRecords cl fuel domain w
     = (Return (listing recordPages recordEnding),
        after w (Metric M_LISTRECORDS 1 :: Token ::
                 pageCalls (CallRecords domain) 1 (S (length recordPages)))).
Proof.
  intros Hz Hr Hzlen Hrlen Hzfuel Hrfuel. split.
  - unfold ListDomains, bind, metrics_AddRequests, rateLimiter_Accept.
    rewrite ListDomains_loop_paginate.
    rewrite (paginate_serves _ _ zonePages zoneEnding) by assumption.
    rewrite !record_event_after, !after_after. reflexivity.
  - unfold ListRecords, bind, metrics_AddRequests, rateLimiter_Accept.
    rewrite ListRecords_loop_paginate.
    rewrite (paginate_serves _ _ recordPages recordEnding) by assumption.
    rewrite !record_event_after, !after_after. reflexivity.
Qed.

Lemma listing_concatenates_pages_witness :
  ListDomains sampleClient 5 emptyWorld
  = (Return ([sampleDomain "example.com"; sampleDomain "example.org"], None),
     after emptyWorld
       [Metric M_LISTZONES 1; Token;
        Remote (CallList (pageOpt 1)); Remote (CallList (pageOpt 2))])
  /\ ListRecords sampleClient 5 "broken.example" emptyWorld
     = (Return ([], Some (ServiceError "503 service unavailable")),
        after emptyWorld
          [Metric M_LISTRECORDS 1; Token;
           Remote (CallRecords "broken.example" (pageOpt 1));
           Remote (CallRecords "broken.example" (pageOpt 2))]).
Proof.
  apply (listing_concatenates_pages sampleClient "broken.example" 5 emptyWorld
           [[sampleDomain "example.com"]] (inl [sampleDomain "example.org"])
           [[recordTXT 21]] (inr (ServiceError "503 service unavailable"))).
  - split.
    + intros h [|i] p Hp; [|destruct i; discriminate].
      injection Hp as <-. repeat split; reflexivity.
    + intros h. repeat split; reflexivity.
  - split.
    + intros h [|i] p Hp; [|destruct i; discriminate].
      injection Hp as <-. repeat split; reflexivity.
    + intros h. reflexivity.
  - vm_compute. reflexivity.
  - vm_compute. reflexivity.
  - simpl. lia.
  - simpl. lia.
Defined.

Lemma ListDomains_world (cl : DNSClient) (fuel : nat) (w : World) :
  exists cs,
    (ListDomains cl fuel w).2
    = after w (Metric M_LISTZONES 1 :: Token :: (Remote <$> cs)).
Proof.
  destruct (paginate_only_calls CallList (DomainsService.List (svc cl))
              fuel firstPage []
              (record_event Token (record_event (Metric M_LISTZONES 1) w)))
    as [cs Hcs].
  exists cs.
  unfold ListDomains, bind, metrics_AddRequests, rateLimiter_Accept.
  rewrite ListDomains_loop_paginate.
  destruct (paginate _ _ _ _ _ _) as [[a| |] w'] eqn:E;
    simpl in Hcs; subst w'; simpl;
    rewrite !record_event_after, !after_after; reflexivity.
Qed.

Lemma ListRecords_world (cl : DNSClient) (fuel : nat) (domain : string)
  (w : World) :
  exists cs,
    (ListRecords cl fuel domain w).2
    = after w (Metric M_LISTRECORDS 1 :: Token :: (Remote <$> cs)).
Proof.
  destruct (paginate_only_calls (CallRecords domain)
              (fun h => DomainsService.Records (svc cl) h domain)
              fuel firstPage []
              (record_event Token (record_event (Metric M_LISTRECORDS 1) w)))
    as [cs Hcs].
  exists cs.
  unfold ListRecords, bind, metrics_AddRequests, rateLimiter_Accept.
  rewrite ListRecords_loop_paginate.
  destruct (paginate _ _ _ _ _ _) as [[a| |] w'] eqn:E;
    simpl in Hcs; subst w'; simpl;
    rewrite !record_event_after, !after_after; reflexivity.
Qed.

(** C4. A call of [ListDomains] or [ListRecords] takes one rate-limiter
    token and increments one metric, once, by one, however many pages the
    loop fetches and whatever the service answers; everything else it does
    is a request to the service. *)
Theorem listing_one_token_one_increment (cl : DNSClient) (fuel : nat)
  (domain : string) (w : World) :
  (tokens (effects (ListDomains cl fuel) w) = 1%nat
   /\ increments (effects (ListDomains cl fuel) w) = 1%nat
   /\ requests M_LISTZONES (effects (ListDomains cl fuel) w) = 1
   /\ exists cs, effects (ListDomains cl fuel) w
                 = Metric M_LISTZONES 1 :: Token :: (Remote <$> cs))
  /\ (tokens (effects (ListRecords cl fuel domain) w) = 1%nat
      /\ increments (effects (ListRecords cl fuel domain) w) = 1%nat
      /\ requests M_LISTRECORDS (effects (ListRecords cl fuel domain) w) = 1
      /\ exists cs, effects (ListRecords cl fuel domain) w
                    = Metric M_LISTRECORDS 1 :: Token :: (Remote <$> cs)).
Proof.
  split.
  - destruct (ListDomains_world cl fuel w) as [cs H].
    apply effects_after in H. rewrite H. simpl.
    rewrite tokens_Remote, increments_Remote, requests_Remote.
    repeat split; eauto.
  - destruct (ListRecords_world cl fuel domain w) as [cs H].
    apply effects_after in H. rewrite H. simpl.
    rewrite tokens_Remote, increments_Remote, requests_Remote.
    repeat split; eauto.
Qed.

Example ListRecords_three_pages :
  effects (ListRecords sampleClient 5 "paged.example") emptyWorld
  = [Metric M_LISTRECORDS 1; Token;
     Remote (CallRecords "paged.example" (pageOpt 1));
     Remote (CallRecords "paged.example" (pageOpt 2));
     Remote (CallRecords "paged.example" (pageOpt 3))]
  /\ result (ListRecords sampleClient 5 "paged.example") emptyWorld
     = Some ([recordTXT 11; recordTXT 12; recordTXT 13; recordTXT 14], None).
Proof. split; reflexivity. Qed.

(** ** Writing records *)

Example Atoi_digits : Atoi "7" = (7, None) /\ Atoi "-12" = (-12, None)
                      /\ Atoi "+5" = (5, None).
Proof. repeat split; reflexivity. Qed.

Example Atoi_syntax :
  (Atoi "").2 = Some (NumError "Atoi" "" ErrSyntax)
  /\ (Atoi "1x").2 = Some (NumError "Atoi" "1x" ErrSyntax)
  /\ (Atoi "-").2 = Some (NumError "Atoi" "-" ErrSyntax)
  /\ (Atoi "1_000").2 = Some (NumError "Atoi" "1_000" ErrSyntax).
Proof. repeat split; reflexivity. Qed.

Example Atoi_range :
  Atoi "9223372036854775807" = (int_max, None)
  /\ Atoi "-9223372036854775808" = (int_min, None)
  /\ Atoi "9223372036854775808"
     = (int_max, Some (NumError "Atoi" "9223372036854775808" ErrRange))
  /\ Atoi "-9223372036854775809"
     = (int_min, Some (NumError "Atoi" "-9223372036854775809" ErrRange))
  /\ (Atoi "99999999999999999999x").2
     = Some (NumError "Atoi" "99999999999999999999x" ErrRange)
  /\ (Atoi "9999999999999999999x").2
     = Some (NumError "Atoi" "9999999999999999999x" ErrSyntax).
Proof. repeat split; reflexivity. Qed.

Lemma createRecordRequest_TTL (r : raw.Record) :
  godo.req_TTL (createRecordRequest r) = Z.max (raw.GetTTL r) 30.
Proof.
  unfold createRecordRequest. simpl.
  destruct (Z.ltb_spec (raw.GetTTL r) 30); simpl; lia.
Qed.

Lemma CreateRecord_run (cl : DNSClient) (r : raw.Record)
  (d : digitalocean.Record) (w : World) :
  raw.asRecord r = Some d ->
  CreateRecord cl r w
  = (Return
       match DomainsService.CreateRecord (svc cl)
               (history w ++ [Metric M_CREATERECORDS 1; Token])
               (digitalocean.domain d) (createRecordRequest r) with
       | Some e =>
           Some (Errorf
             "failed to create record of type %q for DNS name %q and value %q: %s"
             [ArgQ (raw.GetType r); ArgQ (raw.GetDNSName r);
              ArgQ (raw.GetValue r); ArgS e])
       | None => None
       end,
     after w [Metric M_CREATERECORDS 1; Token;
              Remote (CallCreateRecord (digitalocean.domain d)
                                       (createRecordRequest r))]).
Proof.
  intros Hd.
  unfold CreateRecord, bind, metrics_AddRequests, rateLimiter_Accept,
    assertRecord, remote.
  rewrite Hd. simpl. rewrite <- app_assoc. simpl.
  destruct (DomainsService.CreateRecord _ _ _ _);
    simpl; rewrite !record_event_after, !after_after; reflexivity.
Qed.

Lemma UpdateRecord_run (cl : DNSClient) (r : raw.Record)
  (d : digitalocean.Record) (id : Z) (w : World) :
  raw.asRecord r = Some d ->
  Atoi (raw.GetId r) = (id, None) ->
  UpdateRecord cl r w
  = (Return
       match DomainsService.EditRecord (svc cl)
               (history w ++ [Metric M_UPDATERECORDS 1; Token])
               (digitalocean.domain d) id (createRecordRequest r) with
       | Some e =>
           Some (Errorf
             "failed to update record of type %q for DNS name %q and value %q: %s"
             [ArgQ (raw.GetType r); ArgQ (raw.GetDNSName r);
              ArgQ (raw.GetValue r); ArgS e])
       | None => None
       end,
     after w [Metric M_UPDATERECORDS 1; Token;
              Remote (CallEditRecord (digitalocean.domain d) id
                                     (createRecordRequest r))]).
Proof.
  intros Hd Hid.
  unfold UpdateRecord. rewrite Hid.
  unfold bind, metrics_AddRequests, rateLimiter_Accept, assertRecord, remote.
  rewrite Hd. simpl. rewrite <- app_assoc. simpl.
  destruct (DomainsService.EditRecord _ _ _ _ _);
    simpl; rewrite !record_event_after, !after_after; reflexivity.
Qed.

Lemma DeleteRecord_run (cl : DNSClient) (r : raw.Record)
  (d : digitalocean.Record) (id : Z) (w : World) :
  raw.asRecord r = Some d ->
  Atoi (raw.GetId r) = (id, None) ->
  DeleteRecord cl r w
  = (Return
       match DomainsService.DeleteRecord (svc cl)
               (history w ++ [Metric M_DELETERECORDS 1; Token])
               (digitalocean.domain d) id with
       | Some e =>
           Some (Errorf
             "failed to delete record of type %q for DNS name %q and value %q: %s"
             [ArgQ (raw.GetType r); ArgQ (raw.GetDNSName r);
              ArgQ (raw.GetValue r); ArgS e])
       | None => None
       end,
     after w [Metric M_DELETERECORDS 1; Token;
              Remote (CallDeleteRecord (digitalocean.domain d) id)]).
Proof.
  intros Hd Hid.
  unfold DeleteRecord. rewrite Hid.
  unfold bind, metrics_AddRequests, rateLimiter_Accept, assertRecord, remote.
  rewrite Hd. simpl. rewrite <- app_assoc. simpl.
  destruct (DomainsService.DeleteRecord _ _ _ _);
    simpl; rewrite !record_event_after, !after_after; reflexivity.
Qed.

(** An identifier that [Atoi] rejects ends [UpdateRecord] before it has
    touched the world. *)
Lemma UpdateRecord_invalid_id (cl : DNSClient) (r : raw.Record) (e : error)
  (w : World) :
  (Atoi (raw.GetId r)).2 = Some e ->
  UpdateRecord cl r w
  = (Return (Some (Errorf "failed to convert record ID %q to integer: %s"
                          [ArgQ (raw.GetId r); ArgS e])), w).
Proof.
  intros H. unfold UpdateRecord.
  destruct (Atoi (raw.GetId r)) as [id err]. simpl in H. subst err.
  reflexivity.
Qed.

Lemma DeleteRecord_invalid_id (cl : DNSClient) (r : raw.Record) (e : error)
  (w : World) :
  (Atoi (raw.GetId r)).2 = Some e ->
  DeleteRecord cl r w
  = (Return (Some (Errorf "failed to convert ID %q to integer: %s"
                          [ArgQ (raw.GetId r); ArgS e])), w).
Proof.
  intros H. unfold DeleteRecord.
  destruct (Atoi (raw.GetId r)) as [id err]. simpl in H. subst err.
  reflexivity.
Qed.

Lemma effects_unchanged {A : Type} (m : M A) (w : World) :
  (m w).2 = w -> effects m w = [].
Proof.
  intros H. apply effects_after. rewrite H, after_nil. reflexivity.
Qed.

(** C2. The TTL that [CreateRecord] and [UpdateRecord] submit to the remote
    service is [max t 30] for a record of TTL [t]: [t] itself from 30 on,
    and 30 below; the record is submitted in either case. *)
Theorem submitted_TTL_is_max_30 (cl : DNSClient) (r : raw.Record)
  (d : digitalocean.Record) (w : World) :
  raw.asRecord r = Some d ->
  godo.req_TTL (createRecordRequest r) = Z.max (raw.GetTTL r) 30
  /\ (30 <= raw.GetTTL r ->
      godo.req_TTL (createRecordRequest r) = raw.GetTTL r)
  /\ (raw.GetTTL r < 30 -> godo.req_TTL (createRecordRequest r) = 30)
  /\ submittedTTL <$> calls (effects (CreateRecord cl r) w)
     = [Some (Z.max (raw.GetTTL r) 30)]
  /\ (forall id, Atoi (raw.GetId r) = (id, None) ->
      submittedTTL <$> calls (effects (UpdateRecord cl r) w)
      = [Some (Z.max (raw.GetTTL r) 30)]).
Proof.
  intros Hd.
  pose proof (createRecordRequest_TTL r) as Httl.
  split; [exact Httl|].
  split; [intros; lia|].
  split; [intros; lia|].
  split.
  - rewrite (effects_after _ _ _ (f_equal snd (CreateRecord_run cl r d w Hd))).
    simpl. rewrite Httl. reflexivity.
  - intros id Hid.
    rewrite (effects_after _ _ _
               (f_equal snd (UpdateRecord_run cl r d id w Hd Hid))).
    simpl. rewrite Httl. reflexivity.
Qed.

Lemma submitted_TTL_is_max_30_witness :
  godo.req_TTL (createRecordRequest record7) = 30
  /\ submittedTTL <$> calls (effects (CreateRecord sampleClient record7) emptyWorld)
     = [Some 30]
  /\ submittedTTL <$> calls (effects (UpdateRecord sampleClient record7) emptyWorld)
     = [Some 30].
Proof.
  destruct (submitted_TTL_is_max_30 sampleClient record7
              {| digitalocean.DomainRecord :=
                   sampleRecord 7 "A" "www.example.com" "1.2.3.4" 10;
                 digitalocean.domain := "example.com" |} emptyWorld eq_refl)
    as (Hreq & _ & _ & Hcreate & Hupdate).
  split; [exact Hreq|].
  split; [exact Hcreate|].
  apply (Hupdate 7). reflexivity.
Defined.

(** C5. When the identifier of the record does not parse as an integer,
    [UpdateRecord] and [DeleteRecord] return the conversion error and send
    no request to the remote service. *)
Theorem invalid_id_no_remote_call (cl : DNSClient) (r : raw.Record)
  (e : error) (w : World) :
  (Atoi (raw.GetId r)).2 = Some e ->
  (result (UpdateRecord cl r) w
   = Some (Some (Errorf "failed to convert record ID %q to integer: %s"
                        [ArgQ (raw.GetId r); ArgS e]))
   /\ calls (effects (UpdateRecord cl r) w) = [])
  /\ (result (DeleteRecord cl r) w
      = Some (Some (Errorf "failed to convert ID %q to integer: %s"
                           [ArgQ (raw.GetId r); ArgS e]))
      /\ calls (effects (DeleteRecord cl r) w) = []).
Proof.
  intros H. split; split.
  - unfold result. rewrite (UpdateRecord_invalid_id cl r e w H). reflexivity.
  - rewrite effects_unchanged; [reflexivity|].
    rewrite (UpdateRecord_invalid_id cl r e w H). reflexivity.
  - unfold result. rewrite (DeleteRecord_invalid_id cl r e w H). reflexivity.
  - rewrite effects_unchanged; [reflexivity|].
    rewrite (DeleteRecord_invalid_id cl r e w H). reflexivity.
Qed.

Lemma invalid_id_no_remote_call_witness :
  (result (UpdateRecord sampleClient recordForeign) emptyWorld
   = Some (Some (Errorf "failed to convert record ID %q to integer: %s"
                        [ArgQ "rec-7f3a";
                         ArgS (NumError "Atoi" "rec-7f3a" ErrSyntax)]))
   /\ calls (effects (UpdateRecord sampleClient recordForeign) emptyWorld) = [])
  /\ (result (DeleteRecord sampleClient recordForeign) emptyWorld
      = Some (Some (Errorf "failed to convert ID %q to integer: %s"
                           [ArgQ "rec-7f3a";
                            ArgS (NumError "Atoi" "rec-7f3a" ErrSyntax)]))
      /\ calls (effects (DeleteRecord sampleClient recordForeign) emptyWorld) = []).
Proof.
  apply (invalid_id_no_remote_call sampleClient recordForeign
           (NumError "Atoi" "rec-7f3a" ErrSyntax) emptyWorld).
  reflexivity.
Defined.

(** C10. When the identifier of the record does not parse as an integer,
    [UpdateRecord] and [DeleteRecord] return the conversion error with no
    metric incremented and no rate-limiter token taken: the world is left
    as it was. *)
Theorem invalid_id_no_metric_no_token (cl : DNSClient) (r : raw.Record)
  (e : error) (w : World) :
  (Atoi (raw.GetId r)).2 = Some e ->
  (UpdateRecord cl r w
   = (Return (Some (Errorf "failed to convert record ID %q to integer: %s"
                           [ArgQ (raw.GetId r); ArgS e])), w)
   /\ increments (effects (UpdateRecord cl r) w) = O
   /\ tokens (effects (UpdateRecord cl r) w) = O)
  /\ (DeleteRecord cl r w
      = (Return (Some (Errorf "failed to convert ID %q to integer: %s"
                              [ArgQ (raw.GetId r); ArgS e])), w)
      /\ increments (effects (DeleteRecord cl r) w) = O
      /\ tokens (effects (DeleteRecord cl r) w) = O).
Proof.
  intros H.
  pose proof (UpdateRecord_invalid_id cl r e w H) as Hu.
  pose proof (DeleteRecord_invalid_id cl r e w H) as Hd.
  split; (split; [assumption|]).
  - rewrite effects_unchanged by (rewrite Hu; reflexivity). split; reflexivity.
  - rewrite effects_unchanged by (rewrite Hd; reflexivity). split; reflexivity.
Qed.

Lemma invalid_id_no_metric_no_token_witness :
  (UpdateRecord sampleClient recordForeign emptyWorld
   = (Return (Some (Errorf "failed to convert record ID %q to integer: %s"
                           [ArgQ "rec-7f3a";
                            ArgS (NumError "Atoi" "rec-7f3a" ErrSyntax)])),
      emptyWorld)
   /\ increments (effects (UpdateRecord sampleClient recordForeign) emptyWorld) = O
   /\ tokens (effects (UpdateRecord sampleClient recordForeign) emptyWorld) = O)
  /\ (DeleteRecord sampleClient recordForeign emptyWorld
      = (Return (Some (Errorf "failed to convert ID %q to integer: %s"
                              [ArgQ "rec-7f3a";
                               ArgS (NumError "Atoi" "rec-7f3a" ErrSyntax)])),
         emptyWorld)
      /\ increments (effects (DeleteRecord sampleClient recordForeign) emptyWorld) = O
      /\ tokens (effects (DeleteRecord sampleClient recordForeign) emptyWorld) = O).
Proof.
  apply (invalid_id_no_metric_no_token sampleClient recordForeign
           (NumError "Atoi" "rec-7f3a" ErrSyntax) emptyWorld).
  reflexivity.
Defined.

(** C8. What [CreateRecord], [UpdateRecord] and [DeleteRecord] return is
    decided by the answer of the remote service: no error when it reports
    none, and when it reports one, an error that carries the type, the DNS
    name and the value of the record and the error of the service. *)
Theorem remote_failure_is_reported (cl : DNSClient) (r : raw.Record)
  (d : digitalocean.Record) (w : World) :
  raw.asRecord r = Some d ->
  result (CreateRecord cl r) w
  = Some match DomainsService.CreateRecord (svc cl)
                 (history w ++ [Metric M_CREATERECORDS 1; Token])
                 (digitalocean.domain d) (createRecordRequest r) with
         | Some cause =>
             Some (Errorf
               "failed to create record of type %q for DNS name %q and value %q: %s"
               [ArgQ (raw.GetType r); ArgQ (raw.GetDNSName r);
                ArgQ (raw.GetValue r); ArgS cause])
         | None => None
         end
  /\ (forall id, Atoi (raw.GetId r) = (id, None) ->
      result (UpdateRecord cl r) w
      = Some match DomainsService.EditRecord (svc cl)
                     (history w ++ [Metric M_UPDATERECORDS 1; Token])
                     (digitalocean.domain d) id (createRecordRequest r) with
             | Some cause =>
                 Some (Errorf
                   "failed to update record of type %q for DNS name %q and value %q: %s"
                   [ArgQ (raw.GetType r); ArgQ (raw.GetDNSName r);
                    ArgQ (raw.GetValue r); ArgS cause])
             | None => None
             end
      /\ result (DeleteRecord cl r) w
         = Some match DomainsService.DeleteRecord (svc cl)
                        (history w ++ [Metric M_DELETERECORDS 1; Token])
                        (digitalocean.domain d) id with
                | Some cause =>
                    Some (Errorf
                      "failed to delete record of type %q for DNS name %q and value %q: %s"
                      [ArgQ (raw.GetType r); ArgQ (raw.GetDNSName r);
                       ArgQ (raw.GetValue r); ArgS cause])
                | None => None
                end).
Proof.
  intros Hd. unfold result. split.
  - rewrite (CreateRecord_run cl r d w Hd). reflexivity.
  - intros id Hid.
    rewrite (UpdateRecord_run cl r d id w Hd Hid).
    rewrite (DeleteRecord_run cl r d id w Hd Hid).
    split; reflexivity.
Qed.

Lemma remote_failure_is_reported_witness :
  result (CreateRecord sampleClient record7) emptyWorld = Some None
  /\ result (UpdateRecord sampleClient record7) emptyWorld
     = Some (Some (Errorf
          "failed to update record of type %q for DNS name %q and value %q: %s"
          [ArgQ "A"; ArgQ "www.example.com"; ArgQ "1.2.3.4";
           ArgS (ServiceError "404 record not found")]))
  /\ result (DeleteRecord sampleClient record7) emptyWorld
     = Some (Some (Errorf
          "failed to delete record of type %q for DNS name %q and value %q: %s"
          [ArgQ "A"; ArgQ "www.example.com"; ArgQ "1.2.3.4";
           ArgS (ServiceError "404 record not found")])).
Proof.
  destruct (remote_failure_is_reported sampleClient record7
              {| digitalocean.DomainRecord :=
                   sampleRecord 7 "A" "www.example.com" "1.2.3.4" 10;
                 digitalocean.domain := "example.com" |} emptyWorld eq_refl)
    as [Hcreate Hrest].
  split; [exact Hcreate|].
  apply (Hrest 7). reflexivity.
Defined.

Example CreateRecord_failure_reported :
  result (CreateRecord sampleClient recordBad) emptyWorld
  = Some (Some (Errorf
       "failed to create record of type %q for DNS name %q and value %q: %s"
       [ArgQ "A"; ArgQ "bad.example.com"; ArgQ "1.2.3.4";
        ArgS (ServiceError "422 unprocessable entity")])).
Proof. reflexivity. Qed.

(** ** The handler *)

Example NewHandler_sample :
  NewHandler "digitalocean" (fun _ => sampleService) sampleConfig
  = (Some sampleHandler, None).
Proof. reflexivity. Qed.

(** C1. [getZones] on the sample account: example.org has no NS record at
    all, yet its descriptor lists sub.example.com, the delegation of
    example.com, as a forwarded subdomain. The list that collects the
    names is not reset between zones. *)
Theorem getZones_forwarded_leak :
  result (getZones sampleHandler 5) emptyWorld
  = Some ([provider.NewDNSHostedZone "digitalocean" "example.com"
             "example.com" "example.com" ["sub.example.com"] false;
           provider.NewDNSHostedZone "digitalocean" "example.org"
             "example.org" "example.org" ["sub.example.com"] false],
          None)
  /\ appendForwarded (sampleDomain "example.org") [recordOrg] [] = [].
Proof. split; reflexivity. Qed.

Lemma appendForwarded_prefix (dom : godo.Domain)
  (records : list godo.DomainRecord) :
  forall forwarded, forwarded `prefix_of` appendForwarded dom records forwarded.
Proof.
  unfold appendForwarded.
  induction records as [|x records IH]; intros forwarded; simpl.
  - reflexivity.
  - destruct (String.eqb (godo.Type_ x) RS_NS
              && negb (String.eqb (godo.Name x) (godo.Domain_Name dom))).
    + etransitivity; [|apply IH]. apply prefix_app_r. reflexivity.
    + apply IH.
Qed.

(** What the loop of [getZones] does with [forwarded]: every zone it adds
    starts its list of forwarded subdomains with the names collected
    before it, from whatever zone they came. *)
Lemma getZones_loop_carries_forwarded (h : Handler) (fuel : nat)
  (domains : list godo.Domain) :
  forall forwarded zones w result w',
    getZones_loop h fuel domains forwarded zones w
    = (Return (result, None), w') ->
    exists added,
      result = zones ++ added
      /\ Forall (fun z => forwarded `prefix_of` provider.ForwardedDomains z)
                added.
Proof.
  induction domains as [|dom domains IH];
    intros forwarded zones w result w' H.
  - simpl in H. injection H as <- <-. exists []. rewrite app_nil_r.
    split; [reflexivity|constructor].
  - simpl in H. unfold bind in H.
    destruct (ListRecords _ _ _ _) as [[[records [e|]]| |] w1];
      try discriminate.
    apply IH in H. destruct H as (added & -> & Hall).
    eexists (_ :: added). rewrite <- app_assoc. split; [reflexivity|].
    constructor.
    + simpl. apply appendForwarded_prefix.
    + eapply Forall_impl; [exact Hall|]. intros z Hz. simpl in Hz.
      etransitivity; [apply appendForwarded_prefix|exact Hz].
Qed.

(** ** The read snapshot *)

Lemma NewRecord_TTL (cl : DNSClient) (fqdn rtype value : string)
  (zone : provider.DNSHostedZone) (t : Z) :
  in_int t -> raw.GetTTL (NewRecord cl fqdn rtype value zone t) = t.
Proof. intros Ht. simpl. unfold int_of_int64. apply wrap_int_id, Ht. Qed.

Lemma toRecord_TTL (x : godo.DomainRecord) (domain : string) :
  raw.GetTTL (toRecord x domain) = godo.TTL x.
Proof. reflexivity. Qed.

Lemma AddRecord_foldl (domain : string) (listed : list godo.DomainRecord) :
  forall state,
    raw.records
      (foldl (fun state record => raw.AddRecord state (toRecord record domain))
             state listed)
    = raw.records state ++ ((fun x => toRecord x domain) <$> listed).
Proof.
  induction listed as [|x listed IH]; intros state; simpl.
  - rewrite app_nil_r. reflexivity.
  - rewrite IH. simpl. rewrite <- app_assoc. reflexivity.
Qed.

Lemma CalculateDNSSets_foldl (domain name rtype : string)
  (listed : list godo.DomainRecord) :
  forall sets,
    default []
      (foldl (fun sets r => if raw.isForwarded r then sets
                            else raw.addToSet sets r)
             sets ((fun x => toRecord x domain) <$> listed)
       !! (name, rtype))
    = default [] (sets !! (name, rtype)) ++ setOf domain name rtype listed.
Proof.
  induction listed as [|x listed IH]; intros sets.
  - simpl. rewrite app_nil_r. reflexivity.
  - rewrite fmap_cons. simpl foldl. rewrite IH. clear IH.
    unfold setOf. simpl omap.
    unfold raw.isForwarded at 1. simpl.
    destruct (String.eqb (godo.Type_ x) "NS"
              && negb (String.eqb (godo.Name x) domain)); simpl.
    + reflexivity.
    + unfold raw.addToSet. simpl.
      destruct (String.eqb_spec (godo.Name x) name) as [Hn|Hn];
        destruct (String.eqb_spec (godo.Type_ x) rtype) as [Ht|Ht]; simpl.
      * subst. rewrite lookup_insert_eq. simpl.
        rewrite <- app_assoc. reflexivity.
      * rewrite lookup_insert_ne by congruence. reflexivity.
      * rewrite lookup_insert_ne by congruence. reflexivity.
      * rewrite lookup_insert_ne by congruence. reflexivity.
Qed.

Lemma getZoneState_run (h : Handler) (fuel : nat)
  (zone : provider.DNSHostedZone) (listed : list godo.DomainRecord)
  (w w' : World) :
  ListRecords (client h) fuel (provider.Domain zone) w
  = (Return (listed, None), w') ->
  getZoneState h fuel zone w
  = (Return
       (Some (raw.CalculateDNSSets
                (foldl (fun state record =>
                          raw.AddRecord state
                            (toRecord record (provider.Domain zone)))
                       raw.NewState listed)),
        None),
     w').
Proof. intros H. unfold getZoneState, bind. rewrite H. reflexivity. Qed.

(** C9. The floor of 30 seconds is put on the payload alone. A record made
    by [NewRecord] keeps the TTL it was given, and the snapshot that
    [getZoneState] builds keeps the TTL of every listed record, in its
    index of records and in its record sets, also below 30. *)
Theorem TTL_floor_on_payload_only (h : Handler) (fuel : nat)
  (zone : provider.DNSHostedZone) (fqdn rtype value : string) (t : Z)
  (listed : list godo.DomainRecord) (w w' : World) :
  in_int t ->
  ListRecords (client h) fuel (provider.Domain zone) w
  = (Return (listed, None), w') ->
  raw.GetTTL (NewRecord (client h) fqdn rtype value zone t) = t
  /\ godo.req_TTL
       (createRecordRequest (NewRecord (client h) fqdn rtype value zone t))
     = Z.max t 30
  /\ exists state,
       getZoneState h fuel zone w = (Return (Some state, None), w')
       /\ raw.GetTTL <$> raw.records state = godo.TTL <$> listed
       /\ forall name type,
            default [] (raw.dnssets state !! (name, type))
            = setOf (provider.Domain zone) name type listed.
Proof.
  intros Ht Hlist.
  pose proof (NewRecord_TTL (client h) fqdn rtype value zone t Ht) as Hnew.
  split; [exact Hnew|].
  split; [rewrite createRecordRequest_TTL, Hnew; reflexivity|].
  eexists. split; [apply (getZoneState_run h fuel zone listed w w' Hlist)|].
  split.
  - simpl. rewrite AddRecord_foldl. simpl.
    rewrite <- list_fmap_compose. reflexivity.
  - intros name type. simpl. rewrite AddRecord_foldl. simpl.
    rewrite CalculateDNSSets_foldl. rewrite lookup_empty. reflexivity.
Qed.

Lemma TTL_floor_on_payload_only_witness :
  raw.GetTTL (NewRecord sampleClient "example.com" "A" "1.2.3.4" sampleZone 10)
  = 10
  /\ godo.req_TTL
       (createRecordRequest
          (NewRecord sampleClient "example.com" "A" "1.2.3.4" sampleZone 10))
     = 30
  /\ exists state,
       getZoneState sampleHandler 5 sampleZone emptyWorld
       = (Return (Some state, None),
          after emptyWorld [Metric M_LISTRECORDS 1; Token;
                            Remote (CallRecords "example.com" (pageOpt 1))])
       /\ raw.GetTTL <$> raw.records state = [10; 3600]
       /\ forall name type,
            default [] (raw.dnssets state !! (name, type))
            = setOf "example.com" name type [recordA; recordNS].
Proof.
  apply (TTL_floor_on_payload_only sampleHandler 5 sampleZone
           "example.com" "A" "1.2.3.4" 10 [recordA; recordNS] emptyWorld).
  - unfold in_int, int_min, int_max. lia.
  - reflexivity.
Defined.

(** The scenario of the specification: the zone example.com with an A
    record of TTL 10 and the delegation of sub.example.com. The snapshot
    has the one record set of (example.com, A), with TTL 10; the payload of
    a write of that record carries 30. *)
Example snapshot_scenario :
  exists state,
    result (getZoneState sampleHandler 5 sampleZone) emptyWorld
    = Some (Some state, None)
    /\ raw.dnssets state = {[ ("example.com", "A") := [("1.2.3.4", 10)] ]}
    /\ raw.effectiveTTL [("1.2.3.4", 10)] = Some 10
    /\ godo.req_TTL (createRecordRequest (toRecord recordA "example.com")) = 30.
Proof.
  eexists. split; [reflexivity|]. repeat split; reflexivity.
Qed.

(** ** The zone cache *)

Lemma NewHandler_cache (ptype : string) (api : string -> DomainsService.t)
  (c : DNSHandlerConfig) (h : Handler) :
  NewHandler ptype api c = (Some h, None) ->
  ZoneCache.disableZoneStateCache (ZoneCache.config (cache h)) = true.
Proof.
  unfold NewHandler.
  destruct (GetRequiredProperty c _ _) as [token [e|]]; [discriminate|].
  simpl. intros H. injection H as <-. reflexivity.
Qed.

Lemma getZoneState_world (h : Handler) (fuel : nat)
  (zone : provider.DNSHostedZone) (w : World) :
  (getZoneState h fuel zone w).2
  = (ListRecords (client h) fuel (provider.Domain zone) w).2.
Proof.
  unfold getZoneState, bind.
  destruct (ListRecords _ _ _ _) as [[[listed [e|]]| |] w']; reflexivity.
Qed.

(** With the cache of zone states on, as the specification describes it,
    a read that has returned a snapshot is repeated from the store: same
    snapshot, same world. *)
Lemma GetZoneState_memo (h : Handler) (fuel : nat)
  (zone : provider.DNSHostedZone) (snap : raw.ZoneState) (w w1 : World) :
  ZoneCache.disableZoneStateCache (ZoneCache.config (cache h)) = false ->
  GetZoneState h fuel zone w = (Return (Some snap, None), w1) ->
  GetZoneState h fuel zone w1 = (Return (Some snap, None), w1).
Proof.
  unfold GetZoneState, ZoneCache.GetZoneState. intros -> H.
  unfold bind, ZoneCache.cachedState in *. simpl in *.
  destruct (stateEntries w !! provider.Key zone) as [entry|] eqn:Hentry.
  - destruct (valid entry) eqn:Hvalid.
    + injection H as <- <-. rewrite Hentry, Hvalid. reflexivity.
    + destruct (getZoneState h fuel zone w) as [[[[st|] [e|]]| |] w'];
        try discriminate.
      simpl in H. injection H as <- <-. simpl.
      rewrite lookup_insert_eq. reflexivity.
  - destruct (getZoneState h fuel zone w) as [[[[st|] [e|]]| |] w'];
      try discriminate.
    simpl in H. injection H as <- <-. simpl.
    rewrite lookup_insert_eq. reflexivity.
Qed.

(** C6, as the code has it. The handler that [NewHandler] builds has the
    cache of zone states switched off: [GetZoneState] is [getZoneState],
    and every call lists the records of the zone anew, with one metric
    increment and one token. Two calls in a row return the same snapshot
    when the service lists the same records both times, and cost two
    listings. *)
Theorem GetZoneState_lists_every_time (ptype : string)
  (api : string -> DomainsService.t) (c : DNSHandlerConfig) (h : Handler)
  (fuel : nat) (zone : provider.DNSHostedZone) :
  NewHandler ptype api c = (Some h, None) ->
  forall w,
    GetZoneState h fuel zone w = getZoneState h fuel zone w
    /\ requests M_LISTRECORDS (effects (GetZoneState h fuel zone) w) = 1
    /\ tokens (effects (GetZoneState h fuel zone) w) = 1%nat
    /\ forall listed w1 w2,
         ListRecords (client h) fuel (provider.Domain zone) w
         = (Return (listed, None), w1) ->
         ListRecords (client h) fuel (provider.Domain zone) w1
         = (Return (listed, None), w2) ->
         exists snap,
           twice (GetZoneState h fuel zone) w
           = (Return ((Some snap, None), (Some snap, None)), w2)
           /\ requests M_LISTRECORDS
                (effects (twice (GetZoneState h fuel zone)) w) = 2
           /\ tokens (effects (twice (GetZoneState h fuel zone)) w) = 2%nat.
Proof.
  intros Hnew w.
  assert (Heq : forall w, GetZoneState h fuel zone w = getZoneState h fuel zone w).
  { intros w0. unfold GetZoneState, ZoneCache.GetZoneState.
    rewrite (NewHandler_cache _ _ _ _ Hnew). reflexivity. }
  destruct (ListRecords_world (client h) fuel (provider.Domain zone) w)
    as [cs Hcs].
  assert (Hw : (GetZoneState h fuel zone w).2
               = after w (Metric M_LISTRECORDS 1 :: Token :: (Remote <$> cs))).
  { rewrite Heq, getZoneState_world. exact Hcs. }
  split; [apply Heq|].
  rewrite (effects_after _ _ _ Hw). simpl.
  rewrite requests_Remote, tokens_Remote.
  split; [reflexivity|]. split; [reflexivity|].
  intros listed w1 w2 H1 H2.
  eexists.
  assert (Htwice : twice (GetZoneState h fuel zone) w
                   = (Return ((Some (raw.CalculateDNSSets
                       (foldl (fun state record =>
                                 raw.AddRecord state
                                   (toRecord record (provider.Domain zone)))
                              raw.NewState listed)), None),
                              (Some (raw.CalculateDNSSets
                       (foldl (fun state record =>
                                 raw.AddRecord state
                                   (toRecord record (provider.Domain zone)))
                              raw.NewState listed)), None)), w2)).
  { unfold twice, bind. rewrite !Heq.
    rewrite (getZoneState_run h fuel zone listed w w1 H1).
    rewrite Heq.
    rewrite (getZoneState_run h fuel zone listed w1 w2 H2).
    reflexivity. }
  split; [exact Htwice|].
  destruct (ListRecords_world (client h) fuel (provider.Domain zone) w1)
    as [cs' Hcs'].
  rewrite H1 in Hcs. rewrite H2 in Hcs'. simpl in Hcs, Hcs'.
  assert (Hw2 : (twice (GetZoneState h fuel zone) w).2
                = after w ((Metric M_LISTRECORDS 1 :: Token :: (Remote <$> cs))
                           ++ (Metric M_LISTRECORDS 1 :: Token :: (Remote <$> cs')))).
  { rewrite Htwice. simpl. rewrite Hcs', Hcs, after_after. reflexivity. }
  rewrite (effects_after _ _ _ Hw2).
  rewrite requests_app, tokens_app. simpl.
  rewrite !requests_Remote, !tokens_Remote. split; reflexivity.
Qed.

Lemma GetZoneState_lists_every_time_witness :
  GetZoneState sampleHandler 5 sampleZone emptyWorld
  = getZoneState sampleHandler 5 sampleZone emptyWorld
  /\ requests M_LISTRECORDS
       (effects (GetZoneState sampleHandler 5 sampleZone) emptyWorld) = 1
  /\ tokens (effects (GetZoneState sampleHandler 5 sampleZone) emptyWorld)
     = 1%nat
  /\ exists snap,
       twice (GetZoneState sampleHandler 5 sampleZone) emptyWorld
       = (Return ((Some snap, None), (Some snap, None)),
          after emptyWorld
            [Metric M_LISTRECORDS 1; Token;
             Remote (CallRecords "example.com" (pageOpt 1));
             Metric M_LISTRECORDS 1; Token;
             Remote (CallRecords "example.com" (pageOpt 1))])
       /\ requests M_LISTRECORDS
            (effects (twice (GetZoneState sampleHandler 5 sampleZone))
                     emptyWorld) = 2
       /\ tokens (effects (twice (GetZoneState sampleHandler 5 sampleZone))
                          emptyWorld) = 2%nat.
Proof.
  destruct (GetZoneState_lists_every_time "digitalocean"
              (fun _ => sampleService) sampleConfig sampleHandler 5 sampleZone
              eq_refl emptyWorld) as (H1 & H2 & H3 & H4).
  split; [exact H1|]. split; [exact H2|]. split; [exact H3|].
  apply (H4 [recordA; recordNS]
            (after emptyWorld
               [Metric M_LISTRECORDS 1; Token;
                Remote (CallRecords "example.com" (pageOpt 1))])).
  - reflexivity.
  - reflexivity.
Defined.

(** C6, as the specification has it, fails on the handler of the sample
    account: the two reads of example.com return the same snapshot, but
    each of them asks the service for the records. *)
Lemma secondReadFromCache_fails :
  ~ secondReadFromCache sampleHandler 5 sampleZone emptyWorld.
Proof.
  intros (snap & _ & Hcalls).
  vm_compute in Hcalls. discriminate.
Qed.

Example GetZoneState_twice_calls :
  calls (effects (twice (GetZoneState sampleHandler 5 sampleZone)) emptyWorld)
  = [CallRecords "example.com" (pageOpt 1);
     CallRecords "example.com" (pageOpt 1)].
Proof. reflexivity. Qed.

(** ** Batches of change requests *)

Lemma applyRequest_world (cl : DNSClient) (req : ChangeRequest) (w : World) :
  exists es, (applyRequest (DNSClient_Executor cl) req w).2 = after w es.
Proof.
  unfold applyRequest.
  destruct (operationOf req); simpl.
  - destruct (raw.asRecord (Target req)) as [d|] eqn:Hd.
    + rewrite (CreateRecord_run cl _ d w Hd). eexists. reflexivity.
    + exists [Metric M_CREATERECORDS 1; Token].
      unfold CreateRecord, bind, metrics_AddRequests, rateLimiter_Accept,
        assertRecord.
      rewrite Hd. simpl.
        rewrite !record_event_after, !after_after. reflexivity.
  - destruct (Atoi (raw.GetId (Target req))) as [id [e|]] eqn:Hid.
    + exists []. rewrite after_nil.
      rewrite (UpdateRecord_invalid_id cl _ e w); [reflexivity|].
      rewrite Hid. reflexivity.
    + destruct (raw.asRecord (Target req)) as [d|] eqn:Hd.
      * rewrite (UpdateRecord_run cl _ d id w Hd Hid). eexists. reflexivity.
      * exists [Metric M_UPDATERECORDS 1; Token].
        unfold UpdateRecord. rewrite Hid.
        unfold bind, metrics_AddRequests, rateLimiter_Accept, assertRecord.
        rewrite Hd. simpl.
        rewrite !record_event_after, !after_after. reflexivity.
  - destruct (Atoi (raw.GetId (Target req))) as [id [e|]] eqn:Hid.
    + exists []. rewrite after_nil.
      rewrite (DeleteRecord_invalid_id cl _ e w); [reflexivity|].
      rewrite Hid. reflexivity.
    + destruct (raw.asRecord (Target req)) as [d|] eqn:Hd.
      * rewrite (DeleteRecord_run cl _ d id w Hd Hid). eexists. reflexivity.
      * exists [Metric M_DELETERECORDS 1; Token].
        unfold DeleteRecord. rewrite Hid.
        unfold bind, metrics_AddRequests, rateLimiter_Accept, assertRecord.
        rewrite Hd. simpl.
        rewrite !record_event_after, !after_after. reflexivity.
Qed.

(** What has been applied stays in the history. *)
Lemma applied_history (cl : DNSClient) (reqs : list ChangeRequest)
  (w w' : World) :
  applied (DNSClient_Executor cl) reqs w w' ->
  exists es, history w' = history w ++ es.
Proof.
  induction 1 as [w|req rest w w1 w2 Hreq _ IH].
  - exists []. rewrite app_nil_r. reflexivity.
  - destruct (applyRequest_world cl req w) as [es Hes].
    rewrite Hreq in Hes. simpl in Hes. subst w1.
    destruct IH as [es' IH]. exists (es ++ es').
    rewrite IH. simpl. rewrite app_assoc. reflexivity.
Qed.

Lemma executeFrom_applied (access : Executor) (pre : list ChangeRequest)
  (w w1 : World) :
  applied access pre w w1 ->
  forall n rest,
    executeFrom access n (pre ++ rest) w
    = executeFrom access (n + Z.of_nat (length pre)) rest w1.
Proof.
  induction 1 as [w|req pre w w1 w2 Hreq _ IH]; intros n rest.
  - simpl. rewrite Z.add_0_r. reflexivity.
  - simpl executeFrom. unfold bind at 1. rewrite Hreq.
    rewrite IH. f_equal. simpl length. lia.
Qed.

Lemma ApplyRequests_history (c : ZoneCache.t) (err : option error)
  (zone : provider.DNSHostedZone) (reqs : list ChangeRequest) (w : World) :
  exists w', ZoneCache.ApplyRequests c err zone reqs w = (Return tt, w')
             /\ history w' = history w.
Proof.
  unfold ZoneCache.ApplyRequests. destruct err as [e|].
  - eexists. split; reflexivity.
  - unfold bind, ZoneCache.cachedState.
    destruct (stateEntries w !! provider.Key zone) as [entry|];
      [destruct (valid entry)|]; eexists; split; reflexivity.
Qed.

(** C7. [ExecuteRequests] applies the requests of a batch in input order.
    When the requests [pre] have been applied and the next one fails, the
    batch ends there: the requests after it are not attempted, the one
    error returned names the failing record and carries the cause, and
    what [pre] did stays done. A batch that does not fail is applied to
    its end. *)
Theorem batch_stops_at_first_failure (h : Handler)
  (zone : provider.DNSHostedZone) (state : raw.ZoneState)
  (pre : list ChangeRequest) (bad : ChangeRequest)
  (post : list ChangeRequest) (cause : error) (w w1 w2 : World) :
  applied (DNSClient_Executor (client h)) pre w w1 ->
  applyRequest (DNSClient_Executor (client h)) bad w1
  = (Return (Some cause), w2) ->
  (exists w3,
     ExecuteRequests h zone state (pre ++ bad :: post) w
     = (Return (Some (batchError bad (Z.of_nat (length pre)) cause)), w3)
     /\ history w3 = history w2
     /\ exists es1 es2, history w1 = history w ++ es1
                        /\ history w3 = history w ++ es1 ++ es2)
  /\ (exists w3,
        ExecuteRequests h zone state pre w = (Return None, w3)
        /\ history w3 = history w1).
Proof.
  intros Hpre Hbad. split.
  - unfold ExecuteRequests, raw_ExecuteRequests, bind.
    rewrite (executeFrom_applied _ pre w w1 Hpre).
    simpl executeFrom. unfold bind at 1. rewrite Hbad. simpl.
    eexists. split; [reflexivity|]. split; [reflexivity|].
    destruct (applied_history _ _ _ _ Hpre) as [es1 H1].
    destruct (applyRequest_world (client h) bad w1) as [es2 H2].
    rewrite Hbad in H2. simpl in H2.
    exists es1, es2. split; [exact H1|].
    simpl. rewrite H2. simpl. rewrite H1, app_assoc. reflexivity.
  - unfold ExecuteRequests, raw_ExecuteRequests, bind.
    pose proof (executeFrom_applied _ pre w w1 Hpre 0 []) as Hrun.
    rewrite app_nil_r in Hrun. rewrite Hrun.
    cbv beta iota zeta delta [ret executeFrom].
    destruct (ApplyRequests_history (cache h) None zone pre w1)
      as (w3 & Happly & Hhist).
    rewrite Happly. exists w3. split; [reflexivity|exact Hhist].
Qed.

Lemma batch_stops_at_first_failure_witness :
  exists w3,
    ExecuteRequests sampleHandler sampleZone raw.NewState
      [createFoo; update7; delete9] emptyWorld
    = (Return (Some (batchError update7 1
         (Errorf
            "failed to update record of type %q for DNS name %q and value %q: %s"
            [ArgQ "A"; ArgQ "www.example.com"; ArgQ "1.2.3.4";
             ArgS (ServiceError "404 record not found")]))), w3)
    /\ calls (history w3)
       = [CallCreateRecord "example.com" (createRecordRequest recordFoo);
          CallEditRecord "example.com" 7 (createRecordRequest record7)].
Proof.
  destruct (batch_stops_at_first_failure sampleHandler sampleZone raw.NewState
              [createFoo] update7 [delete9]
              (Errorf
                 "failed to update record of type %q for DNS name %q and value %q: %s"
                 [ArgQ "A"; ArgQ "www.example.com"; ArgQ "1.2.3.4";
                  ArgS (ServiceError "404 record not found")])
              emptyWorld
              (applyRequest (DNSClient_Executor sampleClient) createFoo
                 emptyWorld).2
              (applyRequest (DNSClient_Executor sampleClient) update7
                 (applyRequest (DNSClient_Executor sampleClient) createFoo
                    emptyWorld).2).2)
    as [(w3 & Hrun & Hhist & _) _].
  - eapply applied_cons; [reflexivity|apply applied_nil].
  - reflexivity.
  - exists w3. split; [exact Hrun|]. rewrite Hhist. reflexivity.
Defined.

(** The scenario of the specification: in the batch [update record 7;
    create foo.example.com] the update fails; the create is not attempted
    and the error names record 7. *)
Example batch_scenario :
  result (ExecuteRequests sampleHandler sampleZone raw.NewState
            [update7; createFoo]) emptyWorld
  = Some (Some (batchError update7 0
       (Errorf
          "failed to update record of type %q for DNS name %q and value %q: %s"
          [ArgQ "A"; ArgQ "www.example.com"; ArgQ "1.2.3.4";
           ArgS (ServiceError "404 record not found")])))
  /\ calls (effects (ExecuteRequests sampleHandler sampleZone raw.NewState
                       [update7; createFoo]) emptyWorld)
     = [CallEditRecord "example.com" 7 (createRecordRequest record7)]
  /\ ArgQ "7" ∈ operands (batchError update7 0 (ServiceError "any")).
Proof.
  split; [reflexivity|]. split; [reflexivity|].
  simpl. apply list_elem_of_further, list_elem_of_here.
Qed.

(** With the cache of zone states on, the second read of the sample zone
    is served from the store. *)
Example memoHandler_secondReadFromCache :
  secondReadFromCache memoHandler 5 sampleZone emptyWorld.
Proof.
  eexists. split; [reflexivity|]. reflexivity.
Qed.

(* ===================================================================== *)
(** * Further properties of the client *)
(* ===================================================================== *)

Section PaginateMore.

Context {A : Type}.
Variable call : godo.ListOptions -> Call.
Variable answer : list Event -> godo.ListOptions ->
                  list A * godo.Response * option error.

(** The loop over inner pages: after [length pages] of them it stands at
    the next page with their items collected. *)
Lemma paginate_inner (pages : list (list A)) :
  forall (k fuel : nat) (items : list A) (w : World),
    (forall h i p, pages !! i = Some p ->
       innerPage (k + S i) p (answer h (pageOpt (k + S i)))) ->
    Z.of_nat (k + length pages) < int_max ->
    paginate call answer (length pages + fuel) (pageOpt (S k)) items w
    = paginate call answer fuel (pageOpt (S (k + length pages)))
        (items ++ concat pages)
        (after w (pageCalls call (S k) (length pages))).
Proof.
  induction pages as [|p pages IH]; intros k fuel items w Hin Hk.
  - simpl. rewrite Nat.add_0_r, app_nil_r.
    unfold pageCalls. simpl. rewrite after_nil. reflexivity.
  - pose proof (Hin (history w) O p eq_refl) as Hp.
    replace (k + 1)%nat with (S k) in Hp by lia.
    simpl length. simpl Nat.add. simpl paginate. unfold bind, remote.
    destruct (answer (history w) (pageOpt (S k))) as [[page_items resp] err].
    destruct Hp as (Hitems & Herr & Hlinks). simpl in Hitems, Herr, Hlinks.
    subst page_items err.
    destruct (godo.Response_Links resp) as [links|]; [|contradiction].
    destruct Hlinks as [Hnot Hcur]. rewrite Hnot, Hcur.
    assert (Hnext : nextPage (pageOpt (S k)) (Z.of_nat (S k))
                    = pageOpt (S (S k))).
    { unfold nextPage, pageOpt, int_add. simpl godo.PerPage.
      rewrite wrap_int_id.
      - f_equal. lia.
      - unfold in_int, int_min, int_max in *. simpl length in Hk. lia. }
    rewrite Hnext.
    rewrite (IH (S k) fuel (items ++ p)
                (record_event (Remote (call (pageOpt (S k)))) w)).
    + rewrite record_event_after, after_after.
      replace (S k + length pages)%nat with (k + S (length pages))%nat by lia.
      simpl concat. rewrite <- app_assoc. reflexivity.
    + intros h i q Hq.
      replace (S k + S i)%nat with (k + S (S i))%nat by lia.
      apply Hin. exact Hq.
    + simpl length in Hk. lia.
Qed.

(** After inner pages, a page whose links cannot be read ends the loop
    with the error of [CurrentPage] and without the items collected. *)
Lemma paginate_pageUnknown (pages : list (list A)) (e : error)
  (fuel : nat) (w : World) :
  (forall h i p, pages !! i = Some p ->
     innerPage (S i) p (answer h (pageOpt (S i)))) ->
  (forall h, pageUnknown e (answer h (pageOpt (S (length pages))))) ->
  Z.of_nat (length pages) < int_max ->
  (length pages < fuel)%nat ->
  paginate call answer fuel firstPage [] w
  = (Return ([], Some e), after w (pageCalls call 1 (S (length pages)))).
Proof.
  intros Hin Hbad Hlen Hfuel.
  replace fuel with (length pages + S (fuel - S (length pages)))%nat by lia.
  change firstPage with (pageOpt 1).
  rewrite (paginate_inner pages O); [|exact Hin|exact Hlen].
  simpl Nat.add. simpl paginate. unfold bind, remote.
  specialize (Hbad (history (after w (pageCalls call 1 (length pages))))).
  destruct (answer _ (pageOpt (S (length pages)))) as [[page_items resp] err].
  destruct Hbad as (Herr & Hlinks). simpl in Herr, Hlinks. subst err.
  destruct (godo.Response_Links resp) as [links|]; [|contradiction].
  destruct Hlinks as [Hnot Hcur]. rewrite Hnot.
  destruct (godo.CurrentPage links) as [page err]. simpl in Hcur. subst err.
  simpl. rewrite record_event_after, after_after.
  unfold pageCalls. rewrite (seq_S (length pages) 1), fmap_app.
  reflexivity.
Qed.

(** On a service that always has one more page the loop is still running
    after any number of iterations, one request sent in each. *)
Lemma paginate_endless :
  (forall h opt, goesOn (answer h opt)) ->
  forall (fuel : nat) (opt : godo.ListOptions) (items : list A) (w : World),
    exists cs,
      paginate call answer fuel opt items w = (Spins, after w (Remote <$> cs))
      /\ length cs = fuel.
Proof.
  intros Hon. induction fuel as [|fuel IH]; intros opt items w.
  - exists []. simpl. rewrite after_nil. split; reflexivity.
  - simpl. unfold bind, remote.
    pose proof (Hon (history w) opt) as H.
    destruct (answer (history w) opt) as [[page_items resp] err].
    destruct H as (Herr & Hlinks). simpl in Herr, Hlinks. subst err.
    destruct (godo.Response_Links resp) as [links|]; [|contradiction].
    destruct Hlinks as [Hnot Hcur]. rewrite Hnot.
    destruct (godo.CurrentPage links) as [page err]. simpl in Hcur. subst err.
    destruct (IH (nextPage opt page) (items ++ page_items)
                 (record_event (Remote (call opt)) w)) as (cs & Hrun & Hlen).
    exists (call opt :: cs). rewrite Hrun.
    rewrite record_event_after, after_after.
    split; [reflexivity|]. simpl. rewrite Hlen. reflexivity.
Qed.

(** The requests of the loop, whatever the service answers: each is made
    by [call] from options with the page size the loop started with, and
    the first asks for the page the loop started with. *)
Lemma paginate_requests (fuel : nat) :
  forall (opt : godo.ListOptions) (items : list A) (w : World),
    exists opts,
      (paginate call answer fuel opt items w).2
      = after w (Remote <$> (call <$> opts))
      /\ Forall (fun o => godo.PerPage o = godo.PerPage opt) opts
      /\ (fuel <> O -> head opts = Some opt).
Proof.
  induction fuel as [|fuel IH]; intros opt items w.
  - exists []. simpl. rewrite after_nil.
    split; [reflexivity|]. split; [constructor|]. congruence.
  - simpl. unfold bind, remote.
    destruct (answer (history w) opt) as [[page_items resp] err].
    assert (Hone : exists opts,
               record_event (Remote (call opt)) w
               = after w (Remote <$> (call <$> opts))
               /\ Forall (fun o => godo.PerPage o = godo.PerPage opt) opts
               /\ (S fuel <> O -> head opts = Some opt)).
    { exists [opt]. split; [reflexivity|].
      split; [repeat constructor|reflexivity]. }
    destruct err as [e|]; [exact Hone|].
    destruct (godo.Response_Links resp) as [links|]; [|exact Hone].
    destruct (godo.IsLastPage links); [exact Hone|].
    destruct (godo.CurrentPage links) as [page [e|]]; [exact Hone|].
    destruct (IH (nextPage opt page) (items ++ page_items)
                 (record_event (Remote (call opt)) w))
      as (opts & Hw & Hall & _).
    exists (opt :: opts). rewrite Hw, record_event_after, after_after.
    split; [reflexivity|].
    split; [constructor; [reflexivity|exact Hall]|reflexivity].
Qed.

End PaginateMore.

Lemma paginate_second_request {A : Type} (call : godo.ListOptions -> Call)
  (answer : list Event -> godo.ListOptions ->
            list A * godo.Response * option error)
  (opt : godo.ListOptions) (page_items : list A) (resp : godo.Response)
  (links : godo.Links) (p : Z) (w : World) :
  answer (history w) opt = (page_items, resp, None) ->
  godo.Response_Links resp = Some links ->
  godo.IsLastPage links = false ->
  godo.CurrentPage links = (p, None) ->
  forall (fuel : nat) (items : list A),
    exists rest,
      (paginate call answer (S (S fuel)) opt items w).2
      = after w (Remote <$> (call opt :: call (nextPage opt p) :: rest)).
Proof.
  intros Hans Hlinks Hnot Hcur fuel items.
  destruct (paginate_requests call answer (S fuel) (nextPage opt p)
              (items ++ page_items) (record_event (Remote (call opt)) w))
    as (opts & Hw & _ & Hhead).
  specialize (Hhead ltac:(congruence)).
  destruct opts as [|o opts]; [discriminate|].
  injection Hhead as ->.
  exists (call <$> opts).
  change (paginate call answer (S (S fuel)) opt items w)
    with (bind (remote (call opt) (fun h => answer h opt))
               (fun x => match x with
                         | (page_items, resp, err) =>
                             match err with
                             | Some e => ret ([], Some e)
                             | None =>
                                 match godo.Response_Links resp with
                                 | None => ret (items ++ page_items, None)
                                 | Some links =>
                                     if godo.IsLastPage links
                                     then ret (items ++ page_items, None)
                                     else
                                       let (page, err) :=
                                         godo.CurrentPage links in
                                       match err with
                                       | Some e => ret ([], Some e)
                                       | None =>
                                           paginate call answer (S fuel)
                                             (nextPage opt page)
                                             (items ++ page_items)
                                       end
                                 end
                             end
                         end) w).
  unfold bind, remote. rewrite Hans, Hlinks, Hnot, Hcur.
  rewrite Hw, record_event_after, after_after. reflexivity.
Qed.

(** ** Listing: the ways out of the loop and the requests it sends *)

(** X1. When a page that is not the last comes with links from which the
    current page cannot be read, [ListDomains] and [ListRecords] return the
    error of [CurrentPage] and no items: the pages fetched so far are
    dropped, and no further page is asked for. *)
Theorem listing_unreadable_page_is_an_error (cl : DNSClient)
  (domain : string) (fuel : nat) (w : World)
  (zonePages : list (list godo.Domain)) (zoneErr : error)
  (recordPages : list (list godo.DomainRecord)) (recordErr : error) :
  (forall h i p, zonePages !! i = Some p ->
     innerPage (S i) p (DomainsService.List (svc cl) h (pageOpt (S i)))) ->
  (forall h, pageUnknown zoneErr
               (DomainsService.List (svc cl) h
                  (pageOpt (S (length zonePages))))) ->
  (forall h i p, recordPages !! i = Some p ->
     innerPage (S i) p
       (DomainsService.Records (svc cl) h domain (pageOpt (S i)))) ->
  (forall h, pageUnknown recordErr
               (DomainsService.Records (svc cl) h domain
                  (pageOpt (S (length recordPages))))) ->
  Z.of_nat (length zonePages) < int_max ->
  Z.of_nat (length recordPages) < int_max ->
  (length zonePages < fuel)%nat ->
  (length recordPages < fuel)%nat ->
  ListDomains cl fuel w
  = (Return ([], Some zoneErr),
     after w (Metric M_LISTZONES 1 :: Token ::
              pageCalls CallList 1 (S (length zonePages))))
  /\ ListRecords cl fuel domain w
     = (Return ([], Some recordErr),
        after w (Metric M_LISTRECORDS 1 :: Token ::
                 pageCalls (CallRecords domain) 1 (S (length recordPages)))).
Proof.
  intros Hz Hzbad Hr Hrbad Hzlen Hrlen Hzfuel Hrfuel. split.
  - unfold ListDomains, bind, metrics_AddRequests, rateLimiter_Accept.
    rewrite ListDomains_loop_paginate.
    rewrite (paginate_pageUnknown _ _ zonePages zoneErr) by assumption.
    rewrite !record_event_after, !after_after. reflexivity.
  - unfold ListRecords, bind, metrics_AddRequests, rateLimiter_Accept.
    rewrite ListRecords_loop_paginate.
    rewrite (paginate_pageUnknown _
               (fun h => DomainsService.Records (svc cl) h domain)
               recordPages recordErr) by assumption.
    rewrite !record_event_after, !after_after. reflexivity.
Qed.

Lemma listing_unreadable_page_is_an_error_witness :
  ListDomains unreadableClient 5 emptyWorld
  = (Return ([], Some (ServiceError "parse prev page: invalid URL")),
     after emptyWorld
       [Metric M_LISTZONES 1; Token;
        Remote (CallList (pageOpt 1)); Remote (CallList (pageOpt 2))])
  /\ ListRecords unreadableClient 5 "example.com" emptyWorld
     = (Return ([], Some (ServiceError "parse prev page: invalid URL")),
        after emptyWorld
          [Metric M_LISTRECORDS 1; Token;
           Remote (CallRecords "example.com" (pageOpt 1));
           Remote (CallRecords "example.com" (pageOpt 2))]).
Proof.
  apply (listing_unreadable_page_is_an_error unreadableClient "example.com"
           5 emptyWorld
           [[sampleDomain "example.com"]]
           (ServiceError "parse prev page: invalid URL")
           [[recordTXT 31]]
           (ServiceError "parse prev page: invalid URL")).
  - intros h [|i] p Hp; [|destruct i; discriminate].
    injection Hp as <-. repeat split; reflexivity.
  - intros h. repeat split; reflexivity.
  - intros h [|i] p Hp; [|destruct i; discriminate].
    injection Hp as <-. repeat split; reflexivity.
  - intros h. repeat split; reflexivity.
  - vm_compute. reflexivity.
  - vm_compute. reflexivity.
  - simpl. lia.
  - simpl. lia.
Defined.

(** X2. The loops have no bound of their own on the number of pages. On a
    service that never marks a page as the last, [ListDomains] and
    [ListRecords] are still running after any number of iterations, with
    one request sent in each of them and still the one token and the one
    metric increment of the call. *)
Theorem listing_has_no_page_limit (cl : DNSClient) (domain : string) :
  (forall h opt, goesOn (DomainsService.List (svc cl) h opt)) ->
  (forall h opt, goesOn (DomainsService.Records (svc cl) h domain opt)) ->
  forall (fuel : nat) (w : World),
    ((ListDomains cl fuel w).1 = Spins
     /\ length (calls (effects (ListDomains cl fuel) w)) = fuel
     /\ tokens (effects (ListDomains cl fuel) w) = 1%nat
     /\ increments (effects (ListDomains cl fuel) w) = 1%nat)
    /\ ((ListRecords cl fuel domain w).1 = Spins
        /\ length (calls (effects (ListRecords cl fuel domain) w)) = fuel
        /\ tokens (effects (ListRecords cl fuel domain) w) = 1%nat
        /\ increments (effects (ListRecords cl fuel domain) w) = 1%nat).
Proof.
  intros Hz Hr fuel w. split.
  - destruct (paginate_endless CallList (DomainsService.List (svc cl)) Hz
                fuel firstPage []
                (record_event Token (record_event (Metric M_LISTZONES 1) w)))
      as (cs & Hrun & Hlen).
    assert (H : ListDomains cl fuel w
                = (Spins, after w (Metric M_LISTZONES 1 :: Token ::
                                   (Remote <$> cs)))).
    { unfold ListDomains, bind, metrics_AddRequests, rateLimiter_Accept.
      rewrite ListDomains_loop_paginate, Hrun.
      rewrite !record_event_after, !after_after. reflexivity. }
    rewrite (effects_after _ _ _ (f_equal snd H)), H. simpl.
    rewrite calls_Remote, tokens_Remote, increments_Remote. auto.
  - destruct (paginate_endless (CallRecords domain)
                (fun h => DomainsService.Records (svc cl) h domain) Hr
                fuel firstPage []
                (record_event Token (record_event (Metric M_LISTRECORDS 1) w)))
      as (cs & Hrun & Hlen).
    assert (H : ListRecords cl fuel domain w
                = (Spins, after w (Metric M_LISTRECORDS 1 :: Token ::
                                   (Remote <$> cs)))).
    { unfold ListRecords, bind, metrics_AddRequests, rateLimiter_Accept.
      rewrite ListRecords_loop_paginate, Hrun.
      rewrite !record_event_after, !after_after. reflexivity. }
    rewrite (effects_after _ _ _ (f_equal snd H)), H. simpl.
    rewrite calls_Remote, tokens_Remote, increments_Remote. auto.
Qed.

Lemma listing_has_no_page_limit_witness :
  ((ListDomains endlessClient 40 emptyWorld).1 = Spins
   /\ length (calls (effects (ListDomains endlessClient 40) emptyWorld))
      = 40%nat
   /\ tokens (effects (ListDomains endlessClient 40) emptyWorld) = 1%nat
   /\ increments (effects (ListDomains endlessClient 40) emptyWorld) = 1%nat)
  /\ ((ListRecords endlessClient 40 "example.com" emptyWorld).1 = Spins
      /\ length (calls (effects (ListRecords endlessClient 40 "example.com")
                                emptyWorld)) = 40%nat
      /\ tokens (effects (ListRecords endlessClient 40 "example.com")
                         emptyWorld) = 1%nat
      /\ increments (effects (ListRecords endlessClient 40 "example.com")
                             emptyWorld) = 1%nat).
Proof.
  apply (listing_has_no_page_limit endlessClient "example.com").
  - intros h opt. repeat split; reflexivity.
  - intros h opt. repeat split; reflexivity.
Defined.

(** X3. Every request that [ListDomains] and [ListRecords] send asks for
    100 items per page; the first asks for page 1; and [ListRecords] asks
    for the records of the domain it was given and of no other. This holds
    whatever the service answers. *)
Theorem listing_requests_shape (cl : DNSClient) (fuel : nat)
  (domain : string) (w : World) :
  (exists opts,
     calls (effects (ListDomains cl fuel) w) = CallList <$> opts
     /\ Forall (fun o => godo.PerPage o = 100) opts
     /\ (fuel <> O -> head opts = Some firstPage))
  /\ (exists opts,
        calls (effects (ListRecords cl fuel domain) w)
        = CallRecords domain <$> opts
        /\ Forall (fun o => godo.PerPage o = 100) opts
        /\ (fuel <> O -> head opts = Some firstPage)).
Proof.
  split.
  - destruct (paginate_requests CallList (DomainsService.List (svc cl))
                fuel firstPage []
                (record_event Token (record_event (Metric M_LISTZONES 1) w)))
      as (opts & Hw & Hall & Hhead).
    exists opts. split; [|split; assumption].
    assert (H : (ListDomains cl fuel w).2
                = after w (Metric M_LISTZONES 1 :: Token ::
                           (Remote <$> (CallList <$> opts)))).
    { unfold ListDomains, bind, metrics_AddRequests, rateLimiter_Accept.
      rewrite ListDomains_loop_paginate.
      destruct (paginate _ _ _ _ _ _) as [[a| |] w'];
        simpl in Hw; subst w'; simpl;
        rewrite !record_event_after, !after_after; reflexivity. }
    rewrite (effects_after _ _ _ H). simpl. apply calls_Remote.
  - destruct (paginate_requests (CallRecords domain)
                (fun h => DomainsService.Records (svc cl) h domain)
                fuel firstPage []
                (record_event Token (record_event (Metric M_LISTRECORDS 1) w)))
      as (opts & Hw & Hall & Hhead).
    exists opts. split; [|split; assumption].
    assert (H : (ListRecords cl fuel domain w).2
                = after w (Metric M_LISTRECORDS 1 :: Token ::
                           (Remote <$> (CallRecords domain <$> opts)))).
    { unfold ListRecords, bind, metrics_AddRequests, rateLimiter_Accept.
      rewrite ListRecords_loop_paginate.
      destruct (paginate _ _ _ _ _ _) as [[a| |] w'];
        simpl in Hw; subst w'; simpl;
        rewrite !record_event_after, !after_after; reflexivity. }
    rewrite (effects_after _ _ _ H). simpl. apply calls_Remote.
Qed.

(** X4. The loops take the number of the next page from the service, not
    from a counter of their own: when the answer to the first request is
    not the last page and reports page [p] as the current one, the second
    request asks for page [p + 1] (on [int]), whatever page was asked
    first. *)
Theorem listing_resumes_after_reported_page (cl : DNSClient)
  (domain : string) (w : World)
  (zones : list godo.Domain) (records : list godo.DomainRecord)
  (zresp rresp : godo.Response) (zlinks rlinks : godo.Links) (p q : Z) :
  DomainsService.List (svc cl) (history w ++ [Metric M_LISTZONES 1; Token])
    firstPage = (zones, zresp, None) ->
  godo.Response_Links zresp = Some zlinks ->
  godo.IsLastPage zlinks = false ->
  godo.CurrentPage zlinks = (p, None) ->
  DomainsService.Records (svc cl)
    (history w ++ [Metric M_LISTRECORDS 1; Token]) domain firstPage
  = (records, rresp, None) ->
  godo.Response_Links rresp = Some rlinks ->
  godo.IsLastPage rlinks = false ->
  godo.CurrentPage rlinks = (q, None) ->
  forall fuel : nat,
    (exists rest,
       calls (effects (ListDomains cl (S (S fuel))) w)
       = CallList firstPage
         :: CallList {| godo.Page := int_add p 1; godo.PerPage := 100 |}
         :: rest)
    /\ (exists rest,
          calls (effects (ListRecords cl (S (S fuel)) domain) w)
          = CallRecords domain firstPage
            :: CallRecords domain
                 {| godo.Page := int_add q 1; godo.PerPage := 100 |}
            :: rest).
Proof.
  intros Hz Hzl Hzn Hzc Hr Hrl Hrn Hrc fuel. split.
  - destruct (paginate_second_request CallList (DomainsService.List (svc cl))
                firstPage zones zresp zlinks p
                (record_event Token (record_event (Metric M_LISTZONES 1) w)))
      with (fuel := fuel) (items := @nil godo.Domain) as [rest Hw]; auto.
    { simpl. rewrite <- app_assoc. exact Hz. }
    exists rest.
    assert (H : (ListDomains cl (S (S fuel)) w).2
                = after w (Metric M_LISTZONES 1 :: Token ::
                           (Remote <$> (CallList firstPage
                              :: CallList (nextPage firstPage p) :: rest)))).
    { unfold ListDomains, bind, metrics_AddRequests, rateLimiter_Accept.
      rewrite ListDomains_loop_paginate.
      destruct (paginate _ _ _ _ _ _) as [[a| |] w'];
        simpl in Hw; subst w'; simpl;
        rewrite !record_event_after, !after_after; reflexivity. }
    rewrite (effects_after _ _ _ H). simpl. rewrite calls_Remote. reflexivity.
  - destruct (paginate_second_request (CallRecords domain)
                (fun h => DomainsService.Records (svc cl) h domain)
                firstPage records rresp rlinks q
                (record_event Token (record_event (Metric M_LISTRECORDS 1) w)))
      with (fuel := fuel) (items := @nil godo.DomainRecord) as [rest Hw]; auto.
    { simpl. rewrite <- app_assoc. exact Hr. }
    exists rest.
    assert (H : (ListRecords cl (S (S fuel)) domain w).2
                = after w (Metric M_LISTRECORDS 1 :: Token ::
                           (Remote <$> (CallRecords domain firstPage
                              :: CallRecords domain (nextPage firstPage q)
                              :: rest)))).
    { unfold ListRecords, bind, metrics_AddRequests, rateLimiter_Accept.
      rewrite ListRecords_loop_paginate.
      destruct (paginate _ _ _ _ _ _) as [[a| |] w'];
        simpl in Hw; subst w'; simpl;
        rewrite !record_event_after, !after_after; reflexivity. }
    rewrite (effects_after _ _ _ H). simpl. rewrite calls_Remote. reflexivity.
Qed.

Lemma listing_resumes_after_reported_page_witness :
  (exists rest,
     calls (effects (ListDomains sampleClient 2) emptyWorld)
     = CallList firstPage :: CallList (pageOpt 2) :: rest)
  /\ (exists rest,
        calls (effects (ListRecords sampleClient 2 "paged.example") emptyWorld)
        = CallRecords "paged.example" firstPage
          :: CallRecords "paged.example" (pageOpt 2) :: rest).
Proof.
  apply (listing_resumes_after_reported_page sampleClient "paged.example"
           emptyWorld
           [sampleDomain "example.com"] [recordTXT 11; recordTXT 12]
           (morePages 1) (morePages 1)
           {| godo.IsLastPage := false; godo.CurrentPage := (1, None) |}
           {| godo.IsLastPage := false; godo.CurrentPage := (1, None) |}
           1 1); reflexivity.
Defined.

(** ** Writing records: cost, payload and the type assertion *)

(** X5. A write of a record of this provider costs the same whether the
    service accepts it or not: one increment of the metric of its kind,
    then one rate-limiter token, then one request, in this order and
    nothing else. Update and delete address the record by its parsed
    identifier, in the domain of the record. *)
Theorem write_costs_one_of_each (cl : DNSClient) (r : raw.Record)
  (d : digitalocean.Record) (w : World) :
  raw.asRecord r = Some d ->
  effects (CreateRecord cl r) w
  = [Metric M_CREATERECORDS 1; Token;
     Remote (CallCreateRecord (digitalocean.domain d) (createRecordRequest r))]
  /\ (forall id, Atoi (raw.GetId r) = (id, None) ->
      effects (UpdateRecord cl r) w
      = [Metric M_UPDATERECORDS 1; Token;
         Remote (CallEditRecord (digitalocean.domain d) id
                                (createRecordRequest r))]
      /\ effects (DeleteRecord cl r) w
         = [Metric M_DELETERECORDS 1; Token;
            Remote (CallDeleteRecord (digitalocean.domain d) id)]).
Proof.
  intros Hd. split.
  - apply effects_after. rewrite (CreateRecord_run cl r d w Hd). reflexivity.
  - intros id Hid. split; apply effects_after.
    + rewrite (UpdateRecord_run cl r d id w Hd Hid). reflexivity.
    + rewrite (DeleteRecord_run cl r d id w Hd Hid). reflexivity.
Qed.

Lemma write_costs_one_of_each_witness :
  effects (CreateRecord sampleClient record7) emptyWorld
  = [Metric M_CREATERECORDS 1; Token;
     Remote (CallCreateRecord "example.com" (createRecordRequest record7))]
  /\ effects (UpdateRecord sampleClient record7) emptyWorld
     = [Metric M_UPDATERECORDS 1; Token;
        Remote (CallEditRecord "example.com" 7 (createRecordRequest record7))]
  /\ effects (DeleteRecord sampleClient record7) emptyWorld
     = [Metric M_DELETERECORDS 1; Token;
        Remote (CallDeleteRecord "example.com" 7)].
Proof.
  destruct (write_costs_one_of_each sampleClient record7
              {| digitalocean.DomainRecord :=
                   sampleRecord 7 "A" "www.example.com" "1.2.3.4" 10;
                 digitalocean.domain := "example.com" |} emptyWorld eq_refl)
    as [Hcreate Hrest].
  split; [exact Hcreate|].
  apply (Hrest 7). reflexivity.
Defined.

(** X6. The type assertion comes after the bookkeeping. Given a record
    handle that is not a record of this provider, [CreateRecord] panics
    with the request already counted and the token already taken, and no
    request sent; so do [UpdateRecord] and [DeleteRecord] when the
    identifier parses. *)
Theorem foreign_record_panics_after_bookkeeping (cl : DNSClient)
  (r : raw.Record) (w : World) :
  raw.asRecord r = None ->
  CreateRecord cl r w = (Panics, after w [Metric M_CREATERECORDS 1; Token])
  /\ (forall id, Atoi (raw.GetId r) = (id, None) ->
      UpdateRecord cl r w
      = (Panics, after w [Metric M_UPDATERECORDS 1; Token])
      /\ DeleteRecord cl r w
         = (Panics, after w [Metric M_DELETERECORDS 1; Token])).
Proof.
  intros Hd. split.
  - unfold CreateRecord, bind, metrics_AddRequests, rateLimiter_Accept,
      assertRecord.
    rewrite Hd. simpl. rewrite !record_event_after, !after_after. reflexivity.
  - intros id Hid. split.
    + unfold UpdateRecord. rewrite Hid.
      unfold bind, metrics_AddRequests, rateLimiter_Accept, assertRecord.
      rewrite Hd. simpl.
      rewrite !record_event_after, !after_after. reflexivity.
    + unfold DeleteRecord. rewrite Hid.
      unfold bind, metrics_AddRequests, rateLimiter_Accept, assertRecord.
      rewrite Hd. simpl.
      rewrite !record_event_after, !after_after. reflexivity.
Qed.

Lemma foreign_record_panics_after_bookkeeping_witness :
  CreateRecord sampleClient recordForeign7 emptyWorld
  = (Panics, after emptyWorld [Metric M_CREATERECORDS 1; Token])
  /\ UpdateRecord sampleClient recordForeign7 emptyWorld
     = (Panics, after emptyWorld [Metric M_UPDATERECORDS 1; Token])
  /\ DeleteRecord sampleClient recordForeign7 emptyWorld
     = (Panics, after emptyWorld [Metric M_DELETERECORDS 1; Token]).
Proof.
  destruct (foreign_record_panics_after_bookkeeping sampleClient
              recordForeign7 emptyWorld eq_refl) as [Hcreate Hrest].
  split; [exact Hcreate|].
  apply (Hrest 7). reflexivity.
Defined.

(** X7. The payload of a write is made of what the interface [raw.Record]
    shows and of nothing else: type, DNS name and value as they are, a TTL
    of at least 30, and no priority, port, weight, flags or tag, whatever
    the record of the provider behind the handle holds in these fields. *)
Theorem write_payload_fields (cl : DNSClient) (r : raw.Record)
  (d : digitalocean.Record) (w : World) :
  raw.asRecord r = Some d ->
  forall c,
    c ∈ calls (effects (CreateRecord cl r) w)
    \/ c ∈ calls (effects (UpdateRecord cl r) w) ->
    exists req,
      (c = CallCreateRecord (digitalocean.domain d) req
       \/ exists id, c = CallEditRecord (digitalocean.domain d) id req)
      /\ godo.req_Type req = raw.GetType r
      /\ godo.req_Name req = raw.GetDNSName r
      /\ godo.req_Data req = raw.GetValue r
      /\ 30 <= godo.req_TTL req
      /\ godo.req_Priority req = 0
      /\ godo.req_Port req = 0
      /\ godo.req_Weight req = 0
      /\ godo.req_Flags req = 0
      /\ godo.req_Tag req = "".
Proof.
  intros Hd c Hc.
  assert (Hreq : godo.req_Type (createRecordRequest r) = raw.GetType r
                 /\ godo.req_Name (createRecordRequest r) = raw.GetDNSName r
                 /\ godo.req_Data (createRecordRequest r) = raw.GetValue r
                 /\ 30 <= godo.req_TTL (createRecordRequest r)
                 /\ godo.req_Priority (createRecordRequest r) = 0
                 /\ godo.req_Port (createRecordRequest r) = 0
                 /\ godo.req_Weight (createRecordRequest r) = 0
                 /\ godo.req_Flags (createRecordRequest r) = 0
                 /\ godo.req_Tag (createRecordRequest r) = "").
  { pose proof (createRecordRequest_TTL r) as Httl.
    unfold createRecordRequest in *. simpl in *.
    destruct (raw.GetTTL r <? 30); simpl in *; repeat split; lia. }
  exists (createRecordRequest r). split; [|exact Hreq].
  destruct Hc as [Hc|Hc].
  - rewrite (effects_after _ _ _ (f_equal snd (CreateRecord_run cl r d w Hd)))
      in Hc.
    simpl in Hc. apply list_elem_of_singleton in Hc. left. exact Hc.
  - destruct (Atoi (raw.GetId r)) as [id [e|]] eqn:Hid.
    + rewrite effects_unchanged in Hc.
      * simpl in Hc. apply elem_of_nil in Hc. contradiction.
      * rewrite (UpdateRecord_invalid_id cl r e w); [reflexivity|].
        rewrite Hid. reflexivity.
    + rewrite (effects_after _ _ _
                 (f_equal snd (UpdateRecord_run cl r d id w Hd Hid))) in Hc.
      simpl in Hc. apply list_elem_of_singleton in Hc. right. eauto.
Qed.

Lemma write_payload_fields_witness :
  exists req,
    (CallEditRecord "example.com" 5 (createRecordRequest recordMX)
     = CallCreateRecord "example.com" req
     \/ exists id,
          CallEditRecord "example.com" 5 (createRecordRequest recordMX)
          = CallEditRecord "example.com" id req)
    /\ godo.req_Type req = "MX"
    /\ godo.req_Name req = "example.com"
    /\ godo.req_Data req = "mail.example.com"
    /\ 30 <= godo.req_TTL req
    /\ godo.req_Priority req = 0
    /\ godo.req_Port req = 0
    /\ godo.req_Weight req = 0
    /\ godo.req_Flags req = 0
    /\ godo.req_Tag req = "".
Proof.
  apply (write_payload_fields sampleClient recordMX
           {| digitalocean.DomainRecord :=
                {| godo.ID := 5; godo.Type_ := "MX";
                   godo.Name := "example.com";
                   godo.Data := "mail.example.com"; godo.Priority := 10;
                   godo.Port := 0; godo.TTL := 3600; godo.Weight := 0;
                   godo.Flags := 0; godo.Tag := "" |};
              digitalocean.domain := "example.com" |}
           emptyWorld eq_refl
           (CallEditRecord "example.com" 5 (createRecordRequest recordMX))).
  right. vm_compute. apply list_elem_of_here.
Defined.

(* ===================================================================== *)
(** * Further properties of the handler *)
(* ===================================================================== *)

(** ** Zone enumeration *)

Lemma appendForwarded_app (dom : godo.Domain)
  (records : list godo.DomainRecord) :
  forall forwarded,
    appendForwarded dom records forwarded
    = forwarded ++ delegations dom records.
Proof.
  unfold appendForwarded, delegations.
  induction records as [|x records IH]; intros forwarded; simpl.
  - rewrite app_nil_r. reflexivity.
  - rewrite IH. rewrite filter_cons.
    destruct (String.eqb_spec (godo.Type_ x) RS_NS) as [Ht|Ht];
      destruct (String.eqb_spec (godo.Name x) (godo.Domain_Name dom))
        as [Hn|Hn]; simpl;
      destruct (decide (godo.Type_ x = RS_NS
                        /\ godo.Name x <> godo.Domain_Name dom))
        as [[H1 H2]|H]; try contradiction;
      try (exfalso; apply H; split; assumption);
      simpl; rewrite ?fmap_cons, <- ?app_assoc; reflexivity.
Qed.

(** X8. The inner loop of [getZones] keeps what was collected before it,
    in front and untouched, and appends the names of the NS records of the
    domain that differ from the domain's own name, in listing order and
    with repetitions. Records of other types and NS records of the apex
    add nothing. *)
Theorem appendForwarded_is_delegations (dom : godo.Domain)
  (records : list godo.DomainRecord) (forwarded : list string) :
  appendForwarded dom records forwarded
  = forwarded ++ delegations dom records
  /\ (godo.Domain_Name dom ∉ delegations dom records)
  /\ (forall name, name ∈ delegations dom records ->
        exists x, x ∈ records /\ godo.Type_ x = "NS" /\ godo.Name x = name)
  /\ (forall x, x ∈ records -> godo.Type_ x = "NS" ->
        godo.Name x <> godo.Domain_Name dom ->
        godo.Name x ∈ delegations dom records).
Proof.
  split; [apply appendForwarded_app|]. split; [|split].
  - unfold delegations. intros Hin.
    apply list_elem_of_fmap in Hin. destruct Hin as (x & Hx & Hin).
    apply list_elem_of_filter in Hin. destruct Hin as [[_ Hne] _].
    congruence.
  - unfold delegations. intros name Hin.
    apply list_elem_of_fmap in Hin. destruct Hin as (x & Hx & Hin).
    apply list_elem_of_filter in Hin. destruct Hin as [[Ht _] Hin].
    exists x. split; [exact Hin|]. split; [exact Ht|congruence].
  - unfold delegations. intros x Hin Ht Hne.
    apply list_elem_of_fmap. exists x. split; [reflexivity|].
    apply list_elem_of_filter. split; [split; assumption|exact Hin].
Qed.

Lemma ListDomains_shape (cl : DNSClient) (fuel : nat) (w : World) :
  exists opts,
    (ListDomains cl fuel w).2
    = after w (Metric M_LISTZONES 1 :: Token ::
               (Remote <$> (CallList <$> opts))).
Proof.
  destruct (paginate_requests CallList (DomainsService.List (svc cl))
              fuel firstPage []
              (record_event Token (record_event (Metric M_LISTZONES 1) w)))
    as (opts & Hw & _).
  exists opts.
  unfold ListDomains, bind, metrics_AddRequests, rateLimiter_Accept.
  rewrite ListDomains_loop_paginate.
  destruct (paginate _ _ _ _ _ _) as [[a| |] w'];
    simpl in Hw; subst w'; simpl;
    rewrite !record_event_after, !after_after; reflexivity.
Qed.

Lemma ListRecords_shape (cl : DNSClient) (fuel : nat) (domain : string)
  (w : World) :
  exists opts,
    (ListRecords cl fuel domain w).2
    = after w (Metric M_LISTRECORDS 1 :: Token ::
               (Remote <$> (CallRecords domain <$> opts))).
Proof.
  destruct (paginate_requests (CallRecords domain)
              (fun h => DomainsService.Records (svc cl) h domain)
              fuel firstPage []
              (record_event Token (record_event (Metric M_LISTRECORDS 1) w)))
    as (opts & Hw & _).
  exists opts.
  unfold ListRecords, bind, metrics_AddRequests, rateLimiter_Accept.
  rewrite ListRecords_loop_paginate.
  destruct (paginate _ _ _ _ _ _) as [[a| |] w'];
    simpl in Hw; subst w'; simpl;
    rewrite !record_event_after, !after_after; reflexivity.
Qed.

Lemma listing_calls_CallList (opts : list godo.ListOptions) :
  Forall (fun c => isListing c = true) (CallList <$> opts).
Proof. induction opts; constructor; auto. Qed.

Lemma listing_calls_CallRecords (domain : string)
  (opts : list godo.ListOptions) :
  Forall (fun c => isListing c = true) (CallRecords domain <$> opts).
Proof. induction opts; constructor; auto. Qed.

(** The cost of listing the records of one domain after the other. *)
Lemma listedEach_world (cl : DNSClient) (fuel : nat)
  (doms : list godo.Domain) (recss : list (list godo.DomainRecord))
  (w w' : World) :
  listedEach cl fuel doms w recss w' ->
  exists es,
    w' = after w es
    /\ tokens es = length doms
    /\ increments es = length doms
    /\ requests M_LISTRECORDS es = Z.of_nat (length doms)
    /\ requests M_LISTZONES es = 0
    /\ Forall (fun c => isListing c = true) (calls es).
Proof.
  induction 1 as [w|dom doms records recss w w1 w2 Hlist _ IH].
  - exists []. rewrite after_nil. repeat split; constructor.
  - destruct IH as (es' & -> & Ht & Hi & Hr & Hz & Hc).
    destruct (ListRecords_shape cl fuel (godo.Domain_Name dom) w)
      as [opts Hw].
    rewrite Hlist in Hw. simpl in Hw. subst w1.
    eexists. rewrite after_after. split; [reflexivity|].
    rewrite tokens_app, increments_app, !requests_app, calls_app.
    simpl. rewrite tokens_Remote, increments_Remote, !requests_Remote,
      calls_Remote.
    rewrite Ht, Hi, Hr, Hz.
    repeat split; try lia.
    apply Forall_app. split; [apply listing_calls_CallRecords|exact Hc].
Qed.

(** The loop of [getZones] over domains whose records are all listed. *)
Lemma getZones_loop_zones (h : Handler) (fuel : nat)
  (doms : list godo.Domain) (recss : list (list godo.DomainRecord))
  (w w' : World) :
  listedEach (client h) fuel doms w recss w' ->
  forall forwarded zones,
    exists added,
      getZones_loop h fuel doms forwarded zones w
      = (Return (zones ++ added, None), w')
      /\ length added = length doms
      /\ forall k dom,
           doms !! k = Some dom ->
           added !! k
           = Some (zoneOf h dom
                     (forwarded
                      ++ concat (take (S k) (zip_with delegations doms recss)))).
Proof.
  induction 1 as [w|dom doms records recss w w1 w2 Hlist _ IH];
    intros forwarded zones.
  - exists []. rewrite app_nil_r. split; [reflexivity|].
    split; [reflexivity|]. intros k dom Hk. discriminate.
  - destruct (IH (forwarded ++ delegations dom records)
                 (zones ++ [zoneOf h dom (forwarded ++ delegations dom records)]))
      as (added & Hrun & Hlen & Hlook).
    exists (zoneOf h dom (forwarded ++ delegations dom records) :: added).
    split; [|split].
    + simpl getZones_loop. unfold bind at 1. rewrite Hlist.
      cbv beta iota zeta. rewrite appendForwarded_app.
      unfold zoneOf in Hrun. rewrite Hrun. rewrite <- app_assoc. reflexivity.
    + simpl. rewrite Hlen. reflexivity.
    + intros [|k] d Hk.
      * simpl in Hk. injection Hk as <-. simpl. rewrite app_nil_r. reflexivity.
      * simpl in Hk. simpl lookup. rewrite (Hlook k d Hk).
        simpl. rewrite <- app_assoc. reflexivity.
Qed.

Lemma getZones_run (h : Handler) (fuel : nat) (doms : list godo.Domain)
  (w w0 : World) :
  ListDomains (client h) fuel w = (Return (doms, None), w0) ->
  getZones h fuel w = getZones_loop h fuel doms [] [] w0.
Proof. intros H. unfold getZones, bind. rewrite H. reflexivity. Qed.

(** X9. When the domains and the records of each of them are listed
    without error, [getZones] returns one zone per listed domain, in
    listing order; the zone takes its id, its domain and its key from the
    domain's name, the provider type from the handler, and is not private;
    and its list of forwarded subdomains holds the delegations of every
    domain listed up to and including its own, in listing order. *)
Theorem getZones_zone_per_domain (h : Handler) (fuel : nat)
  (doms : list godo.Domain) (recss : list (list godo.DomainRecord))
  (w w0 w' : World) :
  ListDomains (client h) fuel w = (Return (doms, None), w0) ->
  listedEach (client h) fuel doms w0 recss w' ->
  exists zones,
    getZones h fuel w = (Return (zones, None), w')
    /\ provider.Key <$> zones = godo.Domain_Name <$> doms
    /\ forall k dom,
         doms !! k = Some dom ->
         zones !! k
         = Some (provider.NewDNSHostedZone (Handler_ProviderType h)
                   (godo.Domain_Name dom) (godo.Domain_Name dom)
                   (godo.Domain_Name dom)
                   (concat (take (S k) (zip_with delegations doms recss)))
                   false).
Proof.
  intros Hdoms Hrecs.
  destruct (getZones_loop_zones h fuel doms recss w0 w' Hrecs [] [])
    as (zones & Hrun & Hlen & Hlook).
  exists zones. split; [|split].
  - rewrite (getZones_run h fuel doms w w0 Hdoms). exact Hrun.
  - apply list_eq. intros k. rewrite !list_lookup_fmap.
    destruct (doms !! k) as [dom|] eqn:Hk.
    + rewrite (Hlook k dom Hk). reflexivity.
    + apply lookup_ge_None in Hk. rewrite <- Hlen in Hk.
      apply lookup_ge_None in Hk. rewrite Hk. reflexivity.
  - intros k dom Hk. rewrite (Hlook k dom Hk). reflexivity.
Qed.

Lemma getZones_zone_per_domain_witness :
  exists zones,
    getZones sampleHandler 5 emptyWorld
    = (Return (zones, None),
       ((ListRecords sampleClient 5 "example.org")
          ((ListRecords sampleClient 5 "example.com")
             (ListDomains sampleClient 5 emptyWorld).2).2).2)
    /\ provider.Key <$> zones = ["example.com"; "example.org"]
    /\ forall k dom,
         [sampleDomain "example.com"; sampleDomain "example.org"] !! k
         = Some dom ->
         zones !! k
         = Some (provider.NewDNSHostedZone "digitalocean"
                   (godo.Domain_Name dom) (godo.Domain_Name dom)
                   (godo.Domain_Name dom)
                   (concat (take (S k) [["sub.example.com"]; []]))
                   false).
Proof.
  apply (getZones_zone_per_domain sampleHandler 5
           [sampleDomain "example.com"; sampleDomain "example.org"]
           [[recordA; recordNS]; [recordOrg]]
           emptyWorld (ListDomains sampleClient 5 emptyWorld).2).
  - reflexivity.
  - eapply listedEach_cons; [reflexivity|].
    eapply listedEach_cons; [reflexivity|]. apply listedEach_nil.
Defined.

(** X10. The zone of the domain listed first gets exactly the delegations
    of its own records as forwarded subdomains; for an account with one
    domain this is all that [getZones] returns. *)
Theorem getZones_first_zone (h : Handler) (fuel : nat)
  (dom : godo.Domain) (doms : list godo.Domain)
  (records : list godo.DomainRecord) (recss : list (list godo.DomainRecord))
  (w w0 w' : World) :
  ListDomains (client h) fuel w = (Return (dom :: doms, None), w0) ->
  listedEach (client h) fuel (dom :: doms) w0 (records :: recss) w' ->
  exists rest,
    getZones h fuel w
    = (Return (provider.NewDNSHostedZone (Handler_ProviderType h)
                 (godo.Domain_Name dom) (godo.Domain_Name dom)
                 (godo.Domain_Name dom) (delegations dom records) false
               :: rest, None), w')
    /\ length rest = length doms.
Proof.
  intros Hdoms Hrecs.
  destruct (getZones_loop_zones h fuel (dom :: doms) (records :: recss)
              w0 w' Hrecs [] []) as (zones & Hrun & Hlen & Hlook).
  pose proof (Hlook O dom eq_refl) as H0.
  destruct zones as [|z rest]; [discriminate|].
  simpl in H0. rewrite app_nil_r in H0. injection H0 as ->.
  exists rest. split.
  - rewrite (getZones_run h fuel _ w w0 Hdoms). exact Hrun.
  - simpl in Hlen. lia.
Qed.

Lemma getZones_first_zone_witness :
  exists rest,
    getZones sampleHandler 5 emptyWorld
    = (Return (provider.NewDNSHostedZone "digitalocean" "example.com"
                 "example.com" "example.com" ["sub.example.com"] false
               :: rest, None),
       ((ListRecords sampleClient 5 "example.org")
          ((ListRecords sampleClient 5 "example.com")
             (ListDomains sampleClient 5 emptyWorld).2).2).2)
    /\ length rest = 1%nat.
Proof.
  apply (getZones_first_zone sampleHandler 5
           (sampleDomain "example.com") [sampleDomain "example.org"]
           [recordA; recordNS] [[recordOrg]]
           emptyWorld (ListDomains sampleClient 5 emptyWorld).2).
  - reflexivity.
  - eapply listedEach_cons; [reflexivity|].
    eapply listedEach_cons; [reflexivity|]. apply listedEach_nil.
Defined.

(** X11. Enumerating the zones of an account with [n] domains costs
    [n + 1] rate-limiter tokens: one listing of the domains and one listing
    of records per domain, each counted once under its own metric. All the
    requests sent are listings. *)
Theorem getZones_cost (h : Handler) (fuel : nat)
  (doms : list godo.Domain) (recss : list (list godo.DomainRecord))
  (w w0 w' : World) :
  ListDomains (client h) fuel w = (Return (doms, None), w0) ->
  listedEach (client h) fuel doms w0 recss w' ->
  tokens (effects (getZones h fuel) w) = S (length doms)
  /\ requests M_LISTZONES (effects (getZones h fuel) w) = 1
  /\ requests M_LISTRECORDS (effects (getZones h fuel) w)
     = Z.of_nat (length doms)
  /\ increments (effects (getZones h fuel) w) = S (length doms)
  /\ Forall (fun c => isListing c = true) (calls (effects (getZones h fuel) w)).
Proof.
  intros Hdoms Hrecs.
  destruct (getZones_loop_zones h fuel doms recss w0 w' Hrecs [] [])
    as (zones & Hrun & _).
  destruct (ListDomains_shape (client h) fuel w) as [opts Hw0].
  rewrite Hdoms in Hw0. simpl in Hw0.
  destruct (listedEach_world _ _ _ _ _ _ Hrecs)
    as (es & Hw' & Ht & Hi & Hr & Hz & Hc).
  assert (H : (getZones h fuel w).2
              = after w ((Metric M_LISTZONES 1 :: Token ::
                          (Remote <$> (CallList <$> opts))) ++ es)).
  { rewrite (getZones_run h fuel doms w w0 Hdoms), Hrun. simpl.
    rewrite Hw', Hw0, after_after. reflexivity. }
  rewrite (effects_after _ _ _ H).
  rewrite tokens_app, increments_app, !requests_app, calls_app. simpl.
  rewrite tokens_Remote, increments_Remote, !requests_Remote, calls_Remote.
  rewrite Ht, Hi, Hr, Hz.
  repeat split; try lia.
  apply Forall_app. split; [apply listing_calls_CallList|exact Hc].
Qed.

Lemma getZones_cost_witness :
  tokens (effects (getZones sampleHandler 5) emptyWorld) = 3%nat
  /\ requests M_LISTZONES (effects (getZones sampleHandler 5) emptyWorld) = 1
  /\ requests M_LISTRECORDS (effects (getZones sampleHandler 5) emptyWorld)
     = 2
  /\ increments (effects (getZones sampleHandler 5) emptyWorld) = 3%nat
  /\ Forall (fun c => isListing c = true)
            (calls (effects (getZones sampleHandler 5) emptyWorld)).
Proof.
  apply (getZones_cost sampleHandler 5
           [sampleDomain "example.com"; sampleDomain "example.org"]
           [[recordA; recordNS]; [recordOrg]]
           emptyWorld (ListDomains sampleClient 5 emptyWorld).2
           ((ListRecords sampleClient 5 "example.org")
              ((ListRecords sampleClient 5 "example.com")
                 (ListDomains sampleClient 5 emptyWorld).2).2).2).
  - reflexivity.
  - eapply listedEach_cons; [reflexivity|].
    eapply listedEach_cons; [reflexivity|]. apply listedEach_nil.
Defined.

(** The loop of [getZones] past the domains whose records are listed. *)
Lemma getZones_loop_app (h : Handler) (fuel : nat)
  (pre : list godo.Domain) (recss : list (list godo.DomainRecord))
  (w w1 : World) :
  listedEach (client h) fuel pre w recss w1 ->
  forall rest forwarded zones,
    exists forwarded' zones',
      getZones_loop h fuel (pre ++ rest) forwarded zones w
      = getZones_loop h fuel rest forwarded' zones' w1.
Proof.
  induction 1 as [w|dom doms records recss w w1 w2 Hlist _ IH];
    intros rest forwarded zones.
  - exists forwarded, zones. reflexivity.
  - simpl app. simpl getZones_loop. unfold bind at 1. rewrite Hlist.
    cbv beta iota zeta. apply IH.
Qed.

(** X12. When the listing of the records of one domain fails, [getZones]
    returns that error and no zone at all: the zones built for the domains
    before it are dropped, and the domains after it are not listed. *)
Theorem getZones_records_failure (h : Handler) (fuel : nat)
  (pre : list godo.Domain) (bad : godo.Domain) (post : list godo.Domain)
  (recss : list (list godo.DomainRecord)) (junk : list godo.DomainRecord)
  (e : error) (w w0 w1 w2 : World) :
  ListDomains (client h) fuel w = (Return (pre ++ bad :: post, None), w0) ->
  listedEach (client h) fuel pre w0 recss w1 ->
  ListRecords (client h) fuel (godo.Domain_Name bad) w1
  = (Return (junk, Some e), w2) ->
  getZones h fuel w = (Return ([], Some e), w2)
  /\ requests M_LISTRECORDS (effects (getZones h fuel) w)
     = Z.of_nat (S (length pre)).
Proof.
  intros Hdoms Hpre Hbad.
  assert (Hrun : getZones h fuel w = (Return ([], Some e), w2)).
  { rewrite (getZones_run h fuel _ w w0 Hdoms).
    destruct (getZones_loop_app h fuel pre recss w0 w1 Hpre (bad :: post) [] [])
      as (forwarded' & zones' & ->).
    simpl getZones_loop. unfold bind at 1. rewrite Hbad. reflexivity. }
  split; [exact Hrun|].
  destruct (ListDomains_shape (client h) fuel w) as [opts Hw0].
  rewrite Hdoms in Hw0. simpl in Hw0.
  destruct (listedEach_world _ _ _ _ _ _ Hpre) as (es & Hw1 & _ & _ & Hr & _).
  destruct (ListRecords_shape (client h) fuel (godo.Domain_Name bad) w1)
    as [opts' Hw2].
  rewrite Hbad in Hw2. simpl in Hw2.
  assert (H : (getZones h fuel w).2
              = after w ((Metric M_LISTZONES 1 :: Token ::
                          (Remote <$> (CallList <$> opts)))
                         ++ es
                         ++ (Metric M_LISTRECORDS 1 :: Token ::
                             (Remote <$> (CallRecords (godo.Domain_Name bad)
                                            <$> opts'))))).
  { rewrite Hrun. simpl. rewrite Hw2, Hw1, Hw0, !after_after.
    reflexivity. }
  rewrite (effects_after _ _ _ H).
  rewrite !requests_app. simpl. rewrite !requests_Remote, Hr. lia.
Qed.

Lemma getZones_records_failure_witness :
  getZones brokenAccountHandler 5 emptyWorld
  = (Return ([], Some (ServiceError "503 service unavailable")),
     after emptyWorld
       [Metric M_LISTZONES 1; Token; Remote (CallList (pageOpt 1));
        Metric M_LISTRECORDS 1; Token;
        Remote (CallRecords "example.com" (pageOpt 1));
        Metric M_LISTRECORDS 1; Token;
        Remote (CallRecords "broken.example" (pageOpt 1));
        Remote (CallRecords "broken.example" (pageOpt 2))])
  /\ requests M_LISTRECORDS (effects (getZones brokenAccountHandler 5)
                                     emptyWorld) = 2.
Proof.
  apply (getZones_records_failure brokenAccountHandler 5
           [sampleDomain "example.com"] (sampleDomain "broken.example")
           [sampleDomain "example.org"] [[recordA; recordNS]] []
           (ServiceError "503 service unavailable") emptyWorld
           (ListDomains (client brokenAccountHandler) 5 emptyWorld).2
           ((ListRecords (client brokenAccountHandler) 5 "example.com")
              (ListDomains (client brokenAccountHandler) 5 emptyWorld).2).2).
  - reflexivity.
  - eapply listedEach_cons; [reflexivity|]. apply listedEach_nil.
  - reflexivity.
Defined.

(** X13. When the listing of the domains fails, [getZones] returns that
    error and no zone, and does not list any records: the call has cost
    the one token of the failed listing. *)
Theorem getZones_domains_failure (h : Handler) (fuel : nat)
  (junk : list godo.Domain) (e : error) (w w0 : World) :
  ListDomains (client h) fuel w = (Return (junk, Some e), w0) ->
  getZones h fuel w = (Return ([], Some e), w0)
  /\ tokens (effects (getZones h fuel) w) = 1%nat
  /\ requests M_LISTRECORDS (effects (getZones h fuel) w) = 0.
Proof.
  intros Hdoms.
  assert (Hrun : getZones h fuel w = (Return ([], Some e), w0)).
  { unfold getZones, bind. rewrite Hdoms. reflexivity. }
  split; [exact Hrun|].
  destruct (ListDomains_shape (client h) fuel w) as [opts Hw0].
  rewrite Hdoms in Hw0. simpl in Hw0.
  assert (H : (getZones h fuel w).2
              = after w (Metric M_LISTZONES 1 :: Token ::
                         (Remote <$> (CallList <$> opts)))).
  { rewrite Hrun. exact Hw0. }
  rewrite (effects_after _ _ _ H). simpl.
  rewrite tokens_Remote, requests_Remote. split; reflexivity.
Qed.

Lemma getZones_domains_failure_witness :
  getZones downHandler 5 emptyWorld
  = (Return ([], Some (ServiceError "503 service unavailable")),
     after emptyWorld
       [Metric M_LISTZONES 1; Token; Remote (CallList (pageOpt 1))])
  /\ tokens (effects (getZones downHandler 5) emptyWorld) = 1%nat
  /\ requests M_LISTRECORDS (effects (getZones downHandler 5) emptyWorld) = 0.
Proof.
  apply (getZones_domains_failure downHandler 5 []
           (ServiceError "503 service unavailable") emptyWorld).
  reflexivity.
Defined.

(** ** Reading the state of a zone *)

(** X14. [getZoneState] reads the zone through one listing of the records
    of the zone's domain ([zone.Domain()], not its key or id): every
    request it sends is a page of that listing, and the call costs one
    token and one increment of the record-listing metric. When the listing
    fails it returns the listing's error and no state. *)
Theorem getZoneState_lists_zone_domain (h : Handler) (fuel : nat)
  (zone : provider.DNSHostedZone) (w : World) :
  (exists opts,
     calls (effects (getZoneState h fuel zone) w)
     = CallRecords (provider.Domain zone) <$> opts)
  /\ tokens (effects (getZoneState h fuel zone) w) = 1%nat
  /\ increments (effects (getZoneState h fuel zone) w) = 1%nat
  /\ requests M_LISTRECORDS (effects (getZoneState h fuel zone) w) = 1
  /\ (forall junk e w1,
        ListRecords (client h) fuel (provider.Domain zone) w
        = (Return (junk, Some e), w1) ->
        getZoneState h fuel zone w = (Return (None, Some e), w1)).
Proof.
  destruct (ListRecords_shape (client h) fuel (provider.Domain zone) w)
    as [opts Hw].
  rewrite <- getZoneState_world in Hw.
  rewrite (effects_after _ _ _ Hw). simpl.
  rewrite calls_Remote, tokens_Remote, increments_Remote, requests_Remote.
  split; [exists opts; reflexivity|].
  repeat split.
  intros junk e w1 Hlist. unfold getZoneState, bind. rewrite Hlist.
  reflexivity.
Qed.

(* ===================================================================== *)
(** * What a listing returns, on any service *)
(* ===================================================================== *)

Section PaginateSound.

Context {A : Type}.
Variable call : godo.ListOptions -> Call.
Variable answer : list Event -> godo.ListOptions ->
                  list A * godo.Response * option error.

Lemma paginate_sound (fuel : nat) :
  forall (opt : godo.ListOptions) (items res : list A) (err : option error)
         (w w' : World),
    paginate call answer fuel opt items w = (Return (res, err), w') ->
    match err with
    | None =>
        exists opts,
          w' = after w (Remote <$> (call <$> opts))
          /\ res = items ++ concat (imap (servedItems call answer (history w) opts)
                                          opts)
    | Some _ => res = []
    end.
Proof.
  induction fuel as [|fuel IH]; intros opt items res err w w' H.
  - discriminate.
  - simpl in H. unfold bind, remote in H.
    destruct (answer (history w) opt) as [[page_items resp] e] eqn:Hans.
    assert (Hstop : (Return (items ++ page_items, @None error),
                     record_event (Remote (call opt)) w)
                    = (Return (res, err), w') ->
                    match err with
                    | None =>
                        exists opts,
                          w' = after w (Remote <$> (call <$> opts))
                          /\ res = items
                                   ++ concat (imap (servedItems call answer
                                                      (history w) opts)
                                                   opts)
                    | Some _ => res = []
                    end).
    { intros Heq. injection Heq as <- <- <-. exists [opt].
      split; [reflexivity|]. simpl. unfold servedItems. simpl.
      rewrite !app_nil_r, Hans. reflexivity. }
    destruct e as [e|].
    { injection H as <- <- <-. reflexivity. }
    destruct (godo.Response_Links resp) as [links|]; [|exact (Hstop H)].
    destruct (godo.IsLastPage links); [exact (Hstop H)|].
    destruct (godo.CurrentPage links) as [page [e|]].
    { injection H as <- <- <-. reflexivity. }
    apply IH in H. destruct err as [e|]; [exact H|].
    destruct H as (opts & -> & ->).
    exists (opt :: opts). rewrite record_event_after, after_after.
    split; [reflexivity|].
    rewrite imap_cons. simpl concat.
    change (servedItems call answer (history w) (opt :: opts) 0 opt)
      with (answer (history w ++ []) opt).1.1.
    rewrite app_nil_r, Hans. simpl. rewrite <- app_assoc.
    f_equal. f_equal. f_equal.
    apply imap_ext. intros i o _. unfold servedItems. simpl.
    rewrite <- app_assoc. reflexivity.
Qed.

End PaginateSound.

(** X15. On any service, whatever it answers: a listing that returns an
    error returns no items, and a listing that returns no error returns
    the items of the answers to the requests it sent, each answer once and
    in the order of the requests. *)
Theorem listing_returns_what_was_served (cl : DNSClient) (fuel : nat)
  (domain : string) (w : World) :
  (forall res err w',
     ListDomains cl fuel w = (Return (res, err), w') ->
     match err with
     | Some _ => res = []
     | None =>
         exists opts,
           calls (effects (ListDomains cl fuel) w) = CallList <$> opts
           /\ res = concat
                (imap (servedItems CallList (DomainsService.List (svc cl))
                         (history w ++ [Metric M_LISTZONES 1; Token]) opts)
                      opts)
     end)
  /\ (forall res err w',
        ListRecords cl fuel domain w = (Return (res, err), w') ->
        match err with
        | Some _ => res = []
        | None =>
            exists opts,
              calls (effects (ListRecords cl fuel domain) w)
              = CallRecords domain <$> opts
              /\ res = concat
                   (imap (servedItems (CallRecords domain)
                            (fun h => DomainsService.Records (svc cl) h domain)
                            (history w ++ [Metric M_LISTRECORDS 1; Token])
                            opts)
                         opts)
        end).
Proof.
  split.
  - intros res err w' H.
    pose proof H as Hrun.
    unfold ListDomains, bind, metrics_AddRequests, rateLimiter_Accept in H.
    rewrite ListDomains_loop_paginate in H.
    apply paginate_sound in H. destruct err as [e|]; [exact H|].
    destruct H as (opts & Hw & Hres). exists opts. split.
    + apply (f_equal snd) in Hrun. simpl in Hrun.
      rewrite Hw, !record_event_after, !after_after in Hrun.
      rewrite (effects_after _ _ _ Hrun). simpl. apply calls_Remote.
    + rewrite Hres. simpl. f_equal. apply imap_ext. intros i o _.
      unfold servedItems. simpl. rewrite <- !app_assoc. reflexivity.
  - intros res err w' H.
    pose proof H as Hrun.
    unfold ListRecords, bind, metrics_AddRequests, rateLimiter_Accept in H.
    rewrite ListRecords_loop_paginate in H.
    apply paginate_sound in H. destruct err as [e|]; [exact H|].
    destruct H as (opts & Hw & Hres). exists opts. split.
    + apply (f_equal snd) in Hrun. simpl in Hrun.
      rewrite Hw, !record_event_after, !after_after in Hrun.
      rewrite (effects_after _ _ _ Hrun). simpl. apply calls_Remote.
    + rewrite Hres. simpl. f_equal. apply imap_ext. intros i o _.
      unfold servedItems. simpl. rewrite <- !app_assoc. reflexivity.
Qed.

Lemma listing_returns_what_was_served_witness :
  exists opts,
    calls (effects (ListRecords sampleClient 5 "paged.example") emptyWorld)
    = CallRecords "paged.example" <$> opts
    /\ [recordTXT 11; recordTXT 12; recordTXT 13; recordTXT 14]
       = concat
           (imap (servedItems (CallRecords "paged.example")
                    (fun h => DomainsService.Records (svc sampleClient) h
                                "paged.example")
                    (history emptyWorld ++ [Metric M_LISTRECORDS 1; Token])
                    opts)
                 opts).
Proof.
  destruct (listing_returns_what_was_served sampleClient 5 "paged.example"
              emptyWorld) as [_ H].
  apply (H [recordTXT 11; recordTXT 12; recordTXT 13; recordTXT 14] None
           (ListRecords sampleClient 5 "paged.example" emptyWorld).2).
  reflexivity.
Defined.

(* ===================================================================== *)
(** * From a new record to the request that creates it *)
(* ===================================================================== *)

(** X16. A record made by [NewRecord] for a zone and handed to
    [CreateRecord] is created in the domain named by the key of the zone,
    with the type, name and value given to [NewRecord] and the TTL raised
    to at least 30; it costs one metric increment and one token, and one
    request is sent. *)
Theorem NewRecord_then_CreateRecord (cl cl' : DNSClient)
  (fqdn rtype value : string) (zone : provider.DNSHostedZone) (ttl : Z)
  (w : World) :
  in_int ttl ->
  effects (CreateRecord cl (NewRecord cl' fqdn rtype value zone ttl)) w
  = [Metric M_CREATERECORDS 1; Token;
     Remote (CallCreateRecord (provider.Key zone)
               {| godo.req_Type := rtype;
                  godo.req_Name := fqdn;
                  godo.req_Data := value;
                  godo.req_Priority := 0;
                  godo.req_Port := 0;
                  godo.req_TTL := Z.max ttl 30;
                  godo.req_Weight := 0;
                  godo.req_Flags := 0;
                  godo.req_Tag := "" |})].
Proof.
  intros Httl. apply effects_after.
  rewrite (CreateRecord_run cl (NewRecord cl' fqdn rtype value zone ttl)
             {| digitalocean.DomainRecord :=
                  {| godo.ID := 0; godo.Type_ := rtype; godo.Name := fqdn;
                     godo.Data := value; godo.Priority := 0; godo.Port := 0;
                     godo.TTL := int_of_int64 ttl; godo.Weight := 0;
                     godo.Flags := 0; godo.Tag := "" |};
                digitalocean.domain := provider.Key zone |} w eq_refl).
  simpl. unfold createRecordRequest. simpl. unfold int_of_int64.
  rewrite (wrap_int_id ttl Httl).
  destruct (Z.ltb_spec ttl 30); simpl;
    [replace (Z.max ttl 30) with 30 by lia
    |replace (Z.max ttl 30) with ttl by lia]; reflexivity.
Qed.

Lemma NewRecord_then_CreateRecord_witness :
  effects (CreateRecord sampleClient
             (NewRecord sampleClient "foo.example.com" "A" "1.2.3.4"
                        sampleZone 10)) emptyWorld
  = [Metric M_CREATERECORDS 1; Token;
     Remote (CallCreateRecord "example.com"
               {| godo.req_Type := "A";
                  godo.req_Name := "foo.example.com";
                  godo.req_Data := "1.2.3.4";
                  godo.req_Priority := 0;
                  godo.req_Port := 0;
                  godo.req_TTL := 30;
                  godo.req_Weight := 0;
                  godo.req_Flags := 0;
                  godo.req_Tag := "" |})].
Proof.
  apply (NewRecord_then_CreateRecord sampleClient sampleClient
           "foo.example.com" "A" "1.2.3.4" sampleZone 10 emptyWorld).
  unfold in_int, int_min, int_max. lia.
Defined.
